(** * JURISRAG: the ingestion script (load.py) and the interactive
    question-answering script (main.py)

    Both scripts are glue around third-party services: a directory loader,
    a text splitter, an embedding API, a FAISS index and a chat model.  The
    services are an [Env] of functions the scripts call; what the scripts
    themselves decide (which call, with which arguments, in which order,
    what is printed, how an error ends the run) is embedded below, function
    by function, in a small monad with Python's exceptions.

    Conventions of the embedding:
    - a Python [str] is a [string], the bytes of its UTF-8 text; [chars]
      cuts it into code points, which is what [len], slices and [strip]
      count and test;
    - wall-clock readings are not modelled: an f-string field that formats
      a float built from [time.time()] is left in the text as written in
      the source (for instance [{elapsed:.2f}]); a float built from
      integers is the double Python computes, as an exact fraction, and is
      formatted as Python formats it;
    - console writes and logging never fail;
    - the files are a finite map from paths to nodes that only the scripts'
      own [save_local] changes; [question_count], the one variable of
      [main] that is reassigned while exceptions may pass, is kept in the
      state next to them;
    - a node says that a path exists and of which kind it is, not what a
      file holds: jurisrag.log is opened by [logging.basicConfig] when a
      script is imported, before the code embedded here runs, and logging
      only appends to it; list_processed_docs.py, which does not log,
      adds its own write of processed_documents.json; the folder
      "vectorstore" is one node, which stands for the folder together
      with the files [save_local] puts into it;
    - [while True] is run for a given number of passes. *)

From Stdlib Require Import String Ascii List ZArith NArith Lia Bool.
From stdpp Require Import base gmap strings pretty sorting.
Import ListNotations.
Local Open Scope string_scope.

(** ** Python values *)

Record Document := mkDocument {
  page_content : string;
  metadata : list (string * string)
}.

(** Coordinates of an embedding: floats in the library, never inspected by
    the scripts. *)
Definition Vector := list Z.

Record Embeddings := mkEmbeddings { embedding_model : string }.

(** A FAISS store: the indexed documents, their vectors, and the embedding
    function it was built or loaded with. *)
Record VectorStore := mkVectorStore {
  vs_documents : list Document;
  vs_vectors : list Vector;
  vs_embeddings : Embeddings
}.

(** What [except] clauses distinguish: [Exception] stands for any instance
    of class Exception with its [str(e)]; KeyboardInterrupt and SystemExit
    derive from BaseException only, so [except Exception] lets them pass. *)
Inductive BaseException :=
| Exception (msg : string)
| KeyboardInterrupt
| SystemExit (code : Z).

Inductive Result (A : Type) :=
| Ret (a : A)
| Raise (e : BaseException).
Arguments Ret {A} a.
Arguments Raise {A} e.

(** An answer of a third-party call: a value, an Exception, or Ctrl-C
    arriving while the call runs. *)
Inductive Resp (A : Type) :=
| Ok (a : A)
| Fails (msg : string)
| Interrupted.
Arguments Ok {A} a.
Arguments Fails {A} msg.
Arguments Interrupted {A}.

(** ** Configuration objects the scripts build *)

Inductive LoaderClass := Docx2txtLoader.

Record DirectoryLoader := mkDirectoryLoader {
  path : string;
  glob : string;
  loader_cls : LoaderClass;
  show_progress : bool;
  use_multithreading : bool
}.

Inductive LengthFunction := len.

Record RecursiveCharacterTextSplitter := mkSplitter {
  chunk_size : nat;
  chunk_overlap : nat;
  length_function : LengthFunction
}.

Record ChatOpenAI := mkChatOpenAI {
  model : string;
  temperature : Z
}.

Record Retriever := mkRetriever {
  vectorstore : VectorStore;
  search_kwargs_k : nat
}.

Record RetrievalQA := mkRetrievalQA {
  llm : ChatOpenAI;
  chain_type : string;
  retriever : Retriever;
  return_source_documents : bool
}.

(** The dict a chain call returns: key ['result'], and key
    ['source_documents'] when the chain was asked for them. *)
Record QAResult := mkQAResult {
  result : string;
  source_documents : option (list Document)
}.

(** ** The world outside the interpreter *)

Inductive Node :=
| RegularFile
| Folder
| IndexFolder (saved : VectorStore).

Inductive Input :=
| Line (text : string)
| CtrlC.

Record State := mkState {
  fs : gmap string Node;
  stdin : list Input;
  question_count : nat
}.

(** Every third-party answer the scripts depend on.  [listdir] gives the
    entries of a folder, each with its size when it is a regular file. *)
Record Env := mkEnv {
  os_name : string;
  getenv : string -> option string;
  rglob : string -> string -> Resp (list string);
  loader_load : DirectoryLoader -> Resp (list Document);
  splitter_split_documents :
    RecursiveCharacterTextSplitter -> list Document -> Resp (list Document);
  new_OpenAIEmbeddings : Resp Embeddings;
  embed_documents : Embeddings -> list string -> Resp (list Vector);
  write_index : VectorStore -> string -> Resp unit;
  listdir : Node -> list (string * option nat);
  read_index : option Node -> Embeddings -> bool -> Resp VectorStore;
  new_ChatOpenAI : string -> Z -> Resp ChatOpenAI;
  similarity_search : VectorStore -> string -> nat -> Resp (list Document);
  chat_completion : ChatOpenAI -> list Document -> string -> Resp string
}.

(** ** What a run leaves behind *)

Inductive Level := DEBUG | INFO | WARNING | ERROR.

Inductive Fore := WHITE | CYAN | GREEN | BLUE | YELLOW | RED.
Inductive Style := NORMAL | BRIGHT.

Inductive Call :=
| CallRglob (dir pattern : string)
| CallLoad (loader : DirectoryLoader)
| CallSplit (splitter : RecursiveCharacterTextSplitter) (docs : list Document)
| CallNewEmbeddings
| CallEmbed (e : Embeddings) (texts : list string)
| CallBuildIndex (docs : list Document) (vectors : list Vector)
| CallSaveLocal (vs : VectorStore) (folder : string)
| CallLoadLocal (folder : string) (allow_dangerous_deserialization : bool)
| CallNewChatOpenAI (model : string) (temperature : Z)
| CallSearch (vs : VectorStore) (query : string) (k : nat)
| CallChat (llm : ChatOpenAI) (docs : list Document) (query : string)
| CallSystem (command : string).

Inductive Event :=
| Stdout (text : string)
| StdoutColor (style : Style) (color : Fore) (text : string)
| Prompt (color : Fore) (text : string)
| Logged (level : Level) (text : string)
| LoggedException (text : string)
| Wrote (folder : string)
| Ext (c : Call).

Record Run (A : Type) := mkRun {
  outcome : Result A;
  after : State;
  trace : list Event
}.
Arguments mkRun {A} outcome after trace.
Arguments outcome {A} r.
Arguments after {A} r.
Arguments trace {A} r.

(** ** The monad: state, exceptions and a chronological trace *)

Definition Py (A : Type) := State -> Run A.

Definition ret {A} (a : A) : Py A := fun s => mkRun (Ret a) s [].

Definition raise {A} (e : BaseException) : Py A := fun s => mkRun (Raise e) s [].

Definition bind {A B} (m : Py A) (k : A -> Py B) : Py B :=
  fun s =>
    match m s with
    | mkRun (Ret a) s1 t1 =>
        match k a s1 with
        | mkRun o s2 t2 => mkRun o s2 (t1 ++ t2)
        end
    | mkRun (Raise e) s1 t1 => mkRun (Raise e) s1 t1
    end.

Notation "x <- c1 ;; c2" := (bind c1 (fun x => c2))
  (at level 100, c1 at next level, right associativity).
Notation "c1 ;;; c2" := (bind c1 (fun _ => c2))
  (at level 100, right associativity).

Definition emit (e : Event) : Py unit := fun s => mkRun (Ret tt) s [e].

Definition get_state : Py State := fun s => mkRun (Ret s) s [].

(** [sys.exit(code)] *)
Definition sys_exit {A} (code : Z) : Py A := raise (SystemExit code).

(** [try: body / except Exception as e: handler(str(e))] *)
Definition try_except {A} (body : Py A) (handler : string -> Py A) : Py A :=
  fun s =>
    match body s with
    | mkRun (Raise (Exception msg)) s1 t1 =>
        match handler msg s1 with
        | mkRun o s2 t2 => mkRun o s2 (t1 ++ t2)
        end
    | r => r
    end.

(** [try: body / except KeyboardInterrupt: on_interrupt /
    except Exception as e: handler(str(e))]: the two clauses of one [try],
    so neither guards the other. *)
Definition try_except2 {A} (body : Py A) (on_interrupt : Py A)
    (handler : string -> Py A) : Py A :=
  fun s =>
    match body s with
    | mkRun (Raise KeyboardInterrupt) s1 t1 =>
        match on_interrupt s1 with
        | mkRun o s2 t2 => mkRun o s2 (t1 ++ t2)
        end
    | mkRun (Raise (Exception msg)) s1 t1 =>
        match handler msg s1 with
        | mkRun o s2 t2 => mkRun o s2 (t1 ++ t2)
        end
    | r => r
    end.

(** A third-party call: recorded in the trace, then answered. *)
Definition call {A} (c : Call) (answer : Resp A) : Py A :=
  emit (Ext c) ;;;
  match answer with
  | Ok a => ret a
  | Fails msg => raise (Exception msg)
  | Interrupted => raise KeyboardInterrupt
  end.

(** ** Python built-ins used by the scripts *)

Definition str_of_nat (n : nat) : string := pretty n.

(** A code point of a UTF-8 text: a byte that is no continuation byte
    (10xxxxxx) with the continuation bytes that follow it. *)
Definition is_continuation (c : ascii) : bool :=
  let n := nat_of_ascii c in (128 <=? n)%nat && (n <? 192)%nat.

(** The code points of a [str], in order. *)
Fixpoint chars (s : string) : list string :=
  match s with
  | EmptyString => []
  | String c rest =>
      match chars rest with
      | [] => [String c ""]
      | next :: others =>
          match next with
          | String c' _ =>
              if is_continuation c' then String c next :: others
              else String c "" :: next :: others
          | EmptyString => String c "" :: others
          end
      end
  end.

(** [ord(ch)] of one code point, decoded from its bytes. *)
Definition ord (ch : string) : N :=
  match ch with
  | EmptyString => 0
  | String lead rest =>
      let continue (high : N) : N :=
        fold_left (fun acc b => acc * 64 + (N_of_ascii b - 128))%N
                  (list_ascii_of_string rest) high in
      match String.length rest with
      | 0%nat => N_of_ascii lead
      | 1%nat => continue (N_of_ascii lead - 192)%N
      | 2%nat => continue (N_of_ascii lead - 224)%N
      | _ => continue (N_of_ascii lead - 240)%N
      end
  end.

(** The code points for which [str.isspace()] holds: tab to carriage
    return, the four separators U+001C to U+001F, the space, U+0085,
    U+00A0, U+1680, U+2000 to U+200A, U+2028, U+2029, U+202F, U+205F and
    U+3000. *)
Definition whitespace : list N :=
  [ 9; 10; 11; 12; 13; 28; 29; 30; 31; 32; 133; 160; 5760;
    8192; 8193; 8194; 8195; 8196; 8197; 8198; 8199; 8200; 8201; 8202;
    8232; 8233; 8239; 8287; 12288 ]%N.

Definition is_space (ch : string) : bool := existsb (N.eqb (ord ch)) whitespace.

Fixpoint drop_while {A} (p : A -> bool) (l : list A) : list A :=
  match l with
  | x :: rest => if p x then drop_while p rest else l
  | [] => []
  end.

(** [str.lstrip()], [str.rstrip()] and [str.strip()]: white space goes,
    code point by code point, from the left, the right, and both ends. *)
Definition lstrip (s : string) : string :=
  String.concat "" (drop_while is_space (chars s)).

Definition rstrip (s : string) : string :=
  String.concat "" (rev (drop_while is_space (rev (chars s)))).

Definition strip (s : string) : string := rstrip (lstrip s).

(** [len(s)] *)
Definition str_len (s : string) : nat := length (chars s).

(** [s[:n]] *)
Definition str_take (n : nat) (s : string) : string :=
  String.concat "" (firstn n (chars s)).

Definition lower_ascii (c : ascii) : ascii :=
  let n := nat_of_ascii c in
  if ((65 <=? n)%nat && (n <=? 90)%nat) then ascii_of_nat (n + 32) else c.

(** [str.lower()] as far as the scripts use it, which is to compare the
    result with words of ASCII letters: the letters A to Z are lowered.
    Outside ASCII the only code point whose lower case lies in ASCII is
    the Kelvin sign U+212A, which gives k, a letter none of those words
    has; so the comparisons come out as in Python. *)
Fixpoint lower (s : string) : string :=
  match s with
  | String c rest => String (lower_ascii c) (lower rest)
  | EmptyString => EmptyString
  end.

(** [x in [a, b, c]] on strings *)
Definition str_in (x : string) (l : list string) : bool :=
  existsb (String.eqb x) l.

(** [s * n] *)
Fixpoint str_repeat (s : string) (n : nat) : string :=
  match n with
  | O => ""
  | S n' => s +:+ str_repeat s n'
  end.

(** [sep.join(l)] *)
Fixpoint join (sep : string) (l : list string) : string :=
  match l with
  | [] => ""
  | [x] => x
  | x :: rest => x +:+ sep +:+ join sep rest
  end.

(** The text of a list as an f-string renders it, each element through
    [show]. *)
Definition list_repr (show : string -> string) (l : list string) : string :=
  "[" +:+ join ", " (map show l) +:+ "]".

(** [repr(s)] for a text of printable characters without quotes or
    backslashes, which is what file names and messages here are: the
    text between single quotes. *)
Definition str_repr (s : string) : string := "'" +:+ s +:+ "'".
Definition path_repr (s : string) : string := "PosixPath('" +:+ s +:+ "')".

Definition sum_nat (l : list nat) : nat := fold_right Nat.add 0%nat l.
Definition min_nat (l : list nat) : nat := fold_right Nat.min (hd 0%nat l) l.
Definition max_nat (l : list nat) : nat := fold_right Nat.max 0%nat l.

(** ** Floats built from integers

    A double is kept as the exact fraction it stands for, numerator and
    denominator, the denominator a power of two. *)

(** The integer nearest to [num / den], the even one at a tie. *)
Definition round_half_even (num den : N) : N :=
  let q := (num / den)%N in
  match (2 * (num mod den) ?= den)%N with
  | Lt => q
  | Gt => (q + 1)%N
  | Eq => if N.even q then q else (q + 1)%N
  end.

(** [a / (b * 2 ** e)] as a fraction of integers. *)
Definition scaled (a b : N) (e : Z) : N * N :=
  if (0 <=? e)%Z then (a, b * 2 ^ Z.to_N e)%N else (a * 2 ^ Z.to_N (- e), b)%N.

(** [a / b] on ints, for [b] above zero: the double nearest to the
    quotient, which is a mantissa of 53 bits, rounded to even at a tie,
    times a power of two.  (Quotients so large or so small that a double
    overflows or loses bits, beyond 2 ** 1023 or below 2 ** -1022, do not
    arise from counts and file sizes.) *)
Definition true_div (a b : N) : N * N :=
  if (a =? 0)%N then (0, 1)%N
  else
    let e0 := (Z.of_N (N.log2 a) - Z.of_N (N.log2 b) - 52)%Z in
    let '(n0, d0) := scaled a b e0 in
    let e := if (n0 / d0 <? 2 ^ 52)%N then (e0 - 1)%Z else e0 in
    let '(n, d) := scaled a b e in
    let m := round_half_even n d in
    if (0 <=? e)%Z then (m * 2 ^ Z.to_N e, 1)%N else (m, 2 ^ Z.to_N (- e))%N.

(** [x / b] for a float [x] and an int [b] that a double holds exactly. *)
Definition float_div (x : N * N) (b : N) : N * N := true_div (fst x) (snd x * b).

(** [f"{x:.Nf}"]: [x] rounded to [digits] decimals, to even at a tie of
    the exact value. *)
Definition format_f (digits : nat) (x : N * N) : string :=
  let unit := (10 ^ N.of_nat digits)%N in
  let n := round_half_even (fst x * unit) (snd x) in
  let decimals := pretty (n mod unit)%N in
  pretty (n / unit)%N
  +:+ match digits with
      | O => ""
      | _ => "." +:+ String.concat "" (repeat "0" (digits - String.length decimals))
             +:+ decimals
      end.

(** [f"{a / b:.Nf}"] for two counts. *)
Definition format_ratio (digits a b : nat) : string :=
  format_f digits (true_div (N.of_nat a) (N.of_nat b)).

(** [f"{size / 1024:.2f}"] and [f"{size / 1024 / 1024:.2f}"] *)
Definition format_kb (size : N) : string := format_f 2 (true_div size 1024).
Definition format_mb (size : N) : string :=
  format_f 2 (float_div (true_div size 1024) 1024).

(** [print(text)] and [print()] *)
Definition print (text : string) : Py unit := emit (Stdout text).

(** [os.path.exists(p)] *)
Definition path_exists (p : string) : Py bool :=
  s <- get_state ;;
  ret (match fs s !! p with Some _ => true | None => false end).

(** [os.path.isdir(p)] *)
Definition path_isdir (p : string) : Py bool :=
  s <- get_state ;;
  ret (match fs s !! p with
       | Some Folder | Some (IndexFolder _) => true
       | _ => false
       end).

(** [input(prompt)]: the prompt is written, then one line is read; at the
    end of the input Python raises EOFError. *)
Definition input (color : Fore) (prompt : string) : Py string :=
  emit (Prompt color prompt) ;;;
  fun s =>
    match stdin s with
    | Line text :: rest =>
        mkRun (Ret text) (mkState (fs s) rest (question_count s)) []
    | CtrlC :: rest =>
        mkRun (Raise KeyboardInterrupt) (mkState (fs s) rest (question_count s)) []
    | [] => mkRun (Raise (Exception "EOF when reading a line")) s []
    end.

(** ** Console helpers, the same text in load.py and main.py *)

Definition print_color (message : string) (color : Fore) (style : Style) : Py unit :=
  emit (StdoutColor style color message).

Definition print_header (message : string) : Py unit :=
  print_color (str_repeat "=" 70) CYAN BRIGHT ;;;
  print_color message CYAN BRIGHT ;;;
  print_color (str_repeat "=" 70) CYAN BRIGHT.

Definition print_success (message : string) : Py unit :=
  print_color ("✅ " +:+ message) GREEN BRIGHT ;;;
  emit (Logged INFO message).

Definition print_info (message : string) : Py unit :=
  print_color ("ℹ️  " +:+ message) BLUE NORMAL ;;;
  emit (Logged INFO message).

Definition print_warning (message : string) : Py unit :=
  print_color ("⚠️  " +:+ message) YELLOW BRIGHT ;;;
  emit (Logged WARNING message).

Definition print_error (message : string) : Py unit :=
  print_color ("❌ " +:+ message) RED BRIGHT ;;;
  emit (Logged ERROR message).


Definition nl : string := String (ascii_of_nat 10) "".

(** [not x] for [x] a list *)
Definition is_empty {A} (l : list A) : bool :=
  match l with [] => true | _ => false end.

(** [not api_key or api_key == "your_openai_api_key_here"] *)
Definition key_unconfigured (api_key : option string) : bool :=
  match api_key with
  | None => true
  | Some key => (key =? "") || (key =? "your_openai_api_key_here")
  end.

Definition write_fs (folder : string) (node : Node) : Py unit :=
  fun s =>
    mkRun (Ret tt) (mkState (<[folder := node]> (fs s)) (stdin s) (question_count s))
          [Wrote folder].

Section Libraries.
Variable env : Env.

(** Modelled from the spec: [FAISS.from_documents], a third-party function
    absent from the sources.  The spec's ingestion pipeline reads
    "batch embedding call, similarity-index build": the texts of the chunks
    go to the embedding service in one call, then the index is built from
    the chunks and their vectors. *)
Definition FAISS_from_documents (chunks : list Document) (embeddings : Embeddings)
    : Py VectorStore :=
  let texts := map page_content chunks in
  vectors <- call (CallEmbed embeddings texts) (embed_documents env embeddings texts) ;;
  call (CallBuildIndex chunks vectors) (Ok tt) ;;;
  ret (mkVectorStore chunks vectors embeddings).

(** Modelled from the spec: [vectorstore.save_local(folder)], a third-party
    method absent from the sources.  The spec reads "index persisted to
    disk": unless the write fails, the folder holds the index afterwards. *)
Definition save_local (vs : VectorStore) (folder : string) : Py unit :=
  call (CallSaveLocal vs folder) (write_index env vs folder) ;;;
  write_fs folder (IndexFolder vs).

(** [FAISS.load_local(folder, embeddings, allow_dangerous_deserialization)]:
    answered by the environment from what the folder holds. *)
Definition FAISS_load_local (folder : string) (embeddings : Embeddings)
    (allow_dangerous_deserialization : bool) : Py VectorStore :=
  s <- get_state ;;
  call (CallLoadLocal folder allow_dangerous_deserialization)
       (read_index env (fs s !! folder) embeddings allow_dangerous_deserialization).

(** Modelled from the spec: calling a [RetrievalQA] chain of type "stuff",
    third-party code absent from the sources.  The spec's query pipeline
    reads "top-k nearest chunks retrieved, question + retrieved chunks sent
    to a remote chat model": the retriever searches its store for the [k]
    nearest chunks, and they go to the chat model with the question. *)
Definition RetrievalQA_call (chain : RetrievalQA) (query : string) : Py QAResult :=
  let r := retriever chain in
  docs <- call (CallSearch (vectorstore r) query (search_kwargs_k r))
               (similarity_search env (vectorstore r) query (search_kwargs_k r)) ;;
  answer <- call (CallChat (llm chain) docs query)
                 (chat_completion env (llm chain) docs query) ;;
  ret (mkQAResult answer (if return_source_documents chain then Some docs else None)).

End Libraries.

Definition default_data_dir : string :=
  "/Users/gabrielramos/Downloads/DRIVE_DO_BELISARIO".
Definition default_chunk_size : nat := 1000.
Definition default_chunk_overlap : nat := 200.

(** ** load.py *)

Module Load.

(** load.py, line 102: the text of the log record listing the files. *)
Definition file_list_text (docx_files : list string) : string :=
  if (10 <? length docx_files)%nat
  then "File list: " +:+ list_repr str_repr (firstn 10 docx_files) +:+ "..."
  else "Files: " +:+ list_repr path_repr docx_files.
Section WithEnv.
Variable env : Env.

(** load.py, lines 61-78 *)
Definition validate_environment : Py bool :=
  print_info "Validating environment..." ;;;
  let api_key := getenv env "OPENAI_API_KEY" in
  if key_unconfigured api_key then
    print_error "OpenAI API key not configured!" ;;;
    print_color "Please follow these steps:" YELLOW NORMAL ;;;
    print "1. Open the .env file in this directory" ;;;
    print "2. Replace 'your_openai_api_key_here' with your actual OpenAI API key" ;;;
    print "3. Get your API key from: https://platform.openai.com/api-keys" ;;;
    print "4. Save the .env file and run this script again" ;;;
    sys_exit 1
  else
    print_success "OpenAI API key found" ;;;
    emit (Logged DEBUG
            ("API key starts with: " +:+ str_take 20 (default "" api_key) +:+ "...")) ;;;
    ret true.

(** load.py, lines 80-138 *)
Definition load_documents (data_dir : string) : Py (list Document) :=
  print_info ("Loading documents from: " +:+ data_dir) ;;;
  found <- path_exists data_dir ;;
  (if negb found then
     print_error ("Directory not found: " +:+ data_dir) ;;;
     print "Please verify the path exists and contains .docx files." ;;;
     sys_exit 1
   else ret tt) ;;;
  print_info "Scanning directory for .docx files..." ;;;
  docx_files <- call (CallRglob data_dir "*.docx") (rglob env data_dir "*.docx") ;;
  let num_files := length docx_files in
  (if (num_files =? 0)%nat then
     print_error ("No .docx files found in " +:+ data_dir) ;;;
     print "Please verify the directory contains .docx documents." ;;;
     sys_exit 1
   else ret tt) ;;;
  print_success ("Found " +:+ str_of_nat num_files +:+ " .docx files") ;;;
  emit (Logged INFO (file_list_text docx_files)) ;;;
  try_except
    (let loader := mkDirectoryLoader data_dir "**/*.docx" Docx2txtLoader true true in
     print_info "Loading document contents..." ;;;
     print_color "This may take several minutes for large document collections"
                 YELLOW NORMAL ;;;
     documents <- call (CallLoad loader) (loader_load env loader) ;;
     (if is_empty documents then
        print_warning "Files found but no content loaded" ;;;
        print "This may indicate issues with the .docx files." ;;;
        sys_exit 1
      else ret tt) ;;;
     print_success ("Successfully loaded " +:+ str_of_nat (length documents)
                    +:+ " documents in {elapsed:.2f}s") ;;;
     print_info "Average: {elapsed/len(documents):.3f}s per document" ;;;
     emit (Logged INFO
             ("Loaded " +:+ str_of_nat (length documents)
              +:+ " documents, total size: "
              +:+ str_of_nat (sum_nat (map (fun doc => str_len (page_content doc))
                                          documents))
              +:+ " characters")) ;;;
     ret documents)
    (fun e =>
       print_error ("Error loading documents: " +:+ e) ;;;
       emit (LoggedException "Full traceback:") ;;;
       print_color (nl +:+ "Troubleshooting steps:") YELLOW NORMAL ;;;
       print "1. Verify all .docx files are valid and not corrupted" ;;;
       print "2. Check file permissions" ;;;
       print "3. Ensure docx2txt is installed: pip install docx2txt" ;;;
       sys_exit 1).

(** load.py, lines 140-172.  [len(chunks) / len(documents)] raises
    ZeroDivisionError on an empty [documents]. *)
Definition split_documents (documents : list Document)
    (chunk_size chunk_overlap : nat) : Py (list Document) :=
  print_info "Splitting documents into chunks..." ;;;
  print_color ("   Chunk size: " +:+ str_of_nat chunk_size +:+ " characters")
              CYAN NORMAL ;;;
  print_color ("   Chunk overlap: " +:+ str_of_nat chunk_overlap +:+ " characters")
              CYAN NORMAL ;;;
  try_except
    (let text_splitter := mkSplitter chunk_size chunk_overlap len in
     chunks <- call (CallSplit text_splitter documents)
                    (splitter_split_documents env text_splitter documents) ;;
     (if is_empty chunks then
        print_error "No chunks created from documents" ;;;
        sys_exit 1
      else ret tt) ;;;
     (if is_empty documents then raise (Exception "division by zero") else ret tt) ;;;
     print_success ("Created " +:+ str_of_nat (length chunks) +:+ " chunks from "
                    +:+ str_of_nat (length documents)
                    +:+ " documents in {elapsed:.2f}s") ;;;
     print_info ("Average: " +:+ format_ratio 1 (length chunks) (length documents)
                 +:+ " chunks per document") ;;;
     let sizes := map (fun c => str_len (page_content c)) chunks in
     emit (Logged INFO
             ("Chunk sizes - min: " +:+ str_of_nat (min_nat sizes)
              +:+ ", max: " +:+ str_of_nat (max_nat sizes)
              +:+ ", avg: " +:+ format_ratio 0 (sum_nat sizes) (length chunks))) ;;;
     ret chunks)
    (fun e =>
       print_error ("Error splitting documents: " +:+ e) ;;;
       emit (LoggedException "Full traceback:") ;;;
       sys_exit 1).

(** load.py, lines 174-222 *)
Definition create_vectorstore (chunks : list Document) : Py VectorStore :=
  print_info "Creating embeddings and vectorstore..." ;;;
  print_color ("   Processing " +:+ str_of_nat (length chunks) +:+ " chunks")
              CYAN NORMAL ;;;
  print_warning "This may take several minutes and will consume OpenAI API credits" ;;;
  try_except
    (embeddings <- call CallNewEmbeddings (new_OpenAIEmbeddings env) ;;
     print_info "Generating embeddings from OpenAI..." ;;;
     print_color "   This is the slowest step - please be patient" YELLOW NORMAL ;;;
     vectorstore <- FAISS_from_documents env chunks embeddings ;;
     let vectorstore_path := "vectorstore" in
     print_info ("Saving vectorstore to: " +:+ vectorstore_path +:+ "/") ;;;
     save_local env vectorstore vectorstore_path ;;;
     found <- path_exists vectorstore_path ;;
     isdir <- path_isdir vectorstore_path ;;
     (if found && isdir then
        s <- get_state ;;
        let files := from_option (listdir env) [] (fs s !! vectorstore_path) in
        let file_sizes := sum_nat (omap snd files) in
        print_success ("Vectorstore saved successfully ("
                       +:+ str_of_nat (length files)
                       +:+ " files, " +:+ format_mb (N.of_nat file_sizes) +:+ " MB)") ;;;
        print_info ("Embedding generation: {embedding_time:.2f}s "
                    +:+ "({len(chunks)/embedding_time:.2f} chunks/s)") ;;;
        print_info "Total time: {total_time:.2f}s" ;;;
        emit (Logged INFO
                ("Vectorstore created: " +:+ str_of_nat (length chunks)
                 +:+ " chunks, " +:+ str_of_nat file_sizes
                 +:+ " bytes, {total_time:.2f}s"))
      else print_warning "Vectorstore directory not found after save") ;;;
     ret vectorstore)
    (fun e =>
       print_error ("Error creating vectorstore: " +:+ e) ;;;
       emit (LoggedException "Full traceback:") ;;;
       print_color (nl +:+ "Possible causes:") YELLOW NORMAL ;;;
       print "1. Invalid OpenAI API key" ;;;
       print "2. Insufficient API credits" ;;;
       print "3. Network connectivity issues" ;;;
       print "4. Rate limiting from OpenAI" ;;;
       print (nl +:+ "Please check your OpenAI account and try again.") ;;;
       sys_exit 1).

Definition success_header : string :=
  "🎉 SUCCESS! Vectorstore created and saved successfully".

(** load.py, lines 224-274: the [__main__] block.  Line 256 divides by
    [len(docs)] while it builds the text to print. *)
Definition main : Py unit :=
  print_header "📚 JURISRAG - Document Loading and Embedding Pipeline" ;;;
  print "" ;;;
  emit (Logged INFO "Starting document loading pipeline") ;;;
  try_except2
    (validate_environment ;;;
     print "" ;;;
     docs <- load_documents default_data_dir ;;
     print "" ;;;
     chunks <- split_documents docs default_chunk_size default_chunk_overlap ;;
     print "" ;;;
     vectorstore <- create_vectorstore chunks ;;
     print "" ;;;
     print_header success_header ;;;
     print "" ;;;
     print_success
       "Total pipeline time: {overall_time:.2f}s ({overall_time/60:.2f} minutes)" ;;;
     print_color (nl +:+ "Statistics:") CYAN BRIGHT ;;;
     print ("  • Documents processed: " +:+ str_of_nat (length docs)) ;;;
     print ("  • Chunks created: " +:+ str_of_nat (length chunks)) ;;;
     (if is_empty docs then raise (Exception "division by zero") else ret tt) ;;;
     print ("  • Average chunks per doc: "
            +:+ format_ratio 1 (length chunks) (length docs)) ;;;
     print "  • Processing speed: {len(docs)/(overall_time/60):.2f} docs/min" ;;;
     print "" ;;;
     print_color "Next steps:" GREEN BRIGHT ;;;
     print "1. Run 'python main.py' to start the interactive Q&A system" ;;;
     print "2. Ask questions about your legal documents" ;;;
     print "" ;;;
     emit (Logged INFO "Pipeline completed successfully in {overall_time:.2f}s"))
    (print "" ;;;
     print_warning "Process interrupted by user" ;;;
     emit (Logged WARNING "Process interrupted by user") ;;;
     sys_exit 1)
    (fun e =>
       print "" ;;;
       print_error ("Unexpected error: " +:+ e) ;;;
       emit (LoggedException "Unexpected error - full traceback:") ;;;
       sys_exit 1).

End WithEnv.
End Load.

(** ** main.py *)

Module Main.

Inductive LoopCtl := Continue | Break.

(** How a bounded run of the [while True] loop stopped. *)
Inductive Ending := Finished | OutOfFuel.

Definition set_question_count (n : nat) : Py unit :=
  fun s => mkRun (Ret tt) (mkState (fs s) (stdin s) n) [].

Definition get_question_count : Py nat :=
  s <- get_state ;; ret (question_count s).

(** The text of [doc.metadata], a dict of strings. *)
Definition metadata_repr (doc : Document) : string :=
  "{" +:+ join ", " (map (fun kv => str_repr (fst kv) +:+ ": " +:+ str_repr (snd kv))
                         (metadata doc)) +:+ "}".

Section WithEnv.
Variable env : Env.

(** main.py, lines 61-69 *)
Definition validate_environment : Py bool :=
  let api_key := getenv env "OPENAI_API_KEY" in
  if key_unconfigured api_key then
    print_error "OpenAI API key not configured!" ;;;
    print "Please configure your API key in the .env file before running." ;;;
    print "See .env file for instructions." ;;;
    sys_exit 1
  else ret true.

(** main.py, lines 71-98 *)
Definition load_documents (data_dir : string) : Py (list Document) :=
  print_info ("Loading documents from: " +:+ data_dir) ;;;
  found <- path_exists data_dir ;;
  (if negb found then
     print_error ("Directory not found: " +:+ data_dir) ;;;
     sys_exit 1
   else ret tt) ;;;
  try_except
    (let loader := mkDirectoryLoader data_dir "**/*.docx" Docx2txtLoader true false in
     documents <- call (CallLoad loader) (loader_load env loader) ;;
     (if is_empty documents then
        print_error "No documents loaded" ;;;
        sys_exit 1
      else ret tt) ;;;
     print_success ("Loaded " +:+ str_of_nat (length documents) +:+ " documents") ;;;
     ret documents)
    (fun e =>
       print_error ("Error loading documents: " +:+ e) ;;;
       emit (LoggedException "Full traceback:") ;;;
       sys_exit 1).

(** main.py, lines 100-122 *)
Definition split_documents (documents : list Document)
    (chunk_size chunk_overlap : nat) : Py (list Document) :=
  print_info "Splitting documents into chunks..." ;;;
  try_except
    (let text_splitter := mkSplitter chunk_size chunk_overlap len in
     chunks <- call (CallSplit text_splitter documents)
                    (splitter_split_documents env text_splitter documents) ;;
     (if is_empty chunks then
        print_error "No chunks created" ;;;
        sys_exit 1
      else ret tt) ;;;
     print_success ("Created " +:+ str_of_nat (length chunks) +:+ " chunks") ;;;
     ret chunks)
    (fun e =>
       print_error ("Error splitting documents: " +:+ e) ;;;
       emit (LoggedException "Full traceback:") ;;;
       sys_exit 1).

(** main.py, lines 124-138 *)
Definition create_vectorstore (chunks : list Document) : Py VectorStore :=
  print_info "Creating embeddings and vectorstore..." ;;;
  try_except
    (embeddings <- call CallNewEmbeddings (new_OpenAIEmbeddings env) ;;
     vectorstore <- FAISS_from_documents env chunks embeddings ;;
     save_local env vectorstore "vectorstore" ;;;
     print_success "Vectorstore created and saved" ;;;
     ret vectorstore)
    (fun e =>
       print_error ("Error creating vectorstore: " +:+ e) ;;;
       emit (LoggedException "Full traceback:") ;;;
       sys_exit 1).

(** main.py, lines 140-164 *)
Definition load_vectorstore : Py VectorStore :=
  print_info "Loading vectorstore from disk..." ;;;
  found <- path_exists "vectorstore" ;;
  (if negb found then
     print_error "Vectorstore not found!" ;;;
     print "Please run 'python load.py' first to create the vectorstore." ;;;
     sys_exit 1
   else ret tt) ;;;
  try_except
    (embeddings <- call CallNewEmbeddings (new_OpenAIEmbeddings env) ;;
     vectorstore <- FAISS_load_local env "vectorstore" embeddings true ;;
     print_success "Vectorstore loaded successfully" ;;;
     emit (Logged INFO "Vectorstore loaded from disk") ;;;
     ret vectorstore)
    (fun e =>
       print_error ("Error loading vectorstore: " +:+ e) ;;;
       print "The vectorstore may be corrupted. Try running 'python load.py' again." ;;;
       emit (LoggedException "Full traceback:") ;;;
       sys_exit 1).

(** main.py, lines 166-193 *)
Definition create_rag_chain (vectorstore : VectorStore) : Py RetrievalQA :=
  print_info "Creating RAG chain..." ;;;
  try_except
    (llm <- call (CallNewChatOpenAI "gpt-3.5-turbo" 0)
                 (new_ChatOpenAI env "gpt-3.5-turbo" 0) ;;
     let qa_chain := mkRetrievalQA llm "stuff" (mkRetriever vectorstore 5) true in
     print_success "RAG chain created successfully" ;;;
     emit (Logged INFO "RAG chain created with gpt-3.5-turbo") ;;;
     ret qa_chain)
    (fun e =>
       print_error ("Error creating RAG chain: " +:+ e) ;;;
       emit (LoggedException "Full traceback:") ;;;
       sys_exit 1).

(** main.py, lines 214-216: the three ingestion calls of the [else] branch *)
Definition build_vectorstore : Py VectorStore :=
  docs <- load_documents default_data_dir ;;
  chunks <- split_documents docs default_chunk_size default_chunk_overlap ;;
  create_vectorstore chunks.

(** main.py, lines 205-216 *)
Definition obtain_vectorstore : Py VectorStore :=
  found <- path_exists "vectorstore" ;;
  if found then
    print_info "Found existing vectorstore, loading..." ;;;
    load_vectorstore
  else
    print_warning "No vectorstore found, creating new one..." ;;;
    print_warning "This will take a while and consume API credits." ;;;
    print "" ;;;
    build_vectorstore.

(** main.py, lines 202-219: everything before the session starts *)
Definition setup : Py RetrievalQA :=
  validate_environment ;;;
  vectorstore <- obtain_vectorstore ;;
  create_rag_chain vectorstore.

(** main.py, lines 250-270: a line that is neither empty nor a command.
    [result.get('source_documents')] is false for a missing key and for an
    empty list alike. *)
Definition answer (qa_chain : RetrievalQA) (query : string) : Py LoopCtl :=
  print "" ;;;
  print_info "Processando sua pergunta..." ;;;
  emit (Logged DEBUG ("Query: " +:+ query)) ;;;
  res <- RetrievalQA_call env qa_chain query ;;
  count <- get_question_count ;;
  set_question_count (count + 1) ;;;
  print "" ;;;
  print_color "📝 Resposta:" CYAN BRIGHT ;;;
  print_color (str_repeat "-" 70) CYAN NORMAL ;;;
  print (result res) ;;;
  print_color (str_repeat "-" 70) CYAN NORMAL ;;;
  (let sources := default [] (source_documents res) in
   if negb (is_empty sources) then
     let num_sources := length sources in
     print "" ;;;
     print_info ("Baseado em " +:+ str_of_nat num_sources +:+ " documentos relevantes") ;;;
     emit (Logged DEBUG ("Sources: " +:+ list_repr id (map metadata_repr sources)))
   else ret tt) ;;;
  print "" ;;;
  ret Continue.

(** main.py, line 247: ['clear' if os.name != 'nt' else 'cls'] *)
Definition clear_command : string :=
  if negb (os_name env =? "nt") then "clear" else "cls".

(** main.py, lines 235-270: the body of the [try] inside the loop.
    [continue] and reaching the end of the body give [Continue], [break]
    gives [Break]. *)
Definition turn (qa_chain : RetrievalQA) : Py LoopCtl :=
  line <- input GREEN "💬 Pergunta: " ;;
  let query := strip line in
  if query =? "" then ret Continue
  else if str_in (lower query) ["sair"; "exit"; "quit"] then
    print "" ;;;
    count <- get_question_count ;;
    print_success ("Encerrando JURISRAG. " +:+ str_of_nat count
                   +:+ " perguntas respondidas. Até logo!") ;;;
    emit (Logged INFO ("Session ended. " +:+ str_of_nat count
                       +:+ " questions answered.")) ;;;
    ret Break
  else if str_in (lower query) ["limpar"; "clear"; "cls"] then
    call (CallSystem clear_command) (Ok tt) ;;;
    ret Continue
  else answer qa_chain query.

(** main.py, lines 272-276 *)
Definition on_interrupt : Py LoopCtl :=
  print "" ;;;
  print_warning "Interrompido pelo usuário" ;;;
  count <- get_question_count ;;
  emit (Logged INFO ("Session interrupted. " +:+ str_of_nat count
                     +:+ " questions answered.")) ;;;
  ret Break.

(** main.py, lines 277-282 *)
Definition on_exception (e : string) : Py LoopCtl :=
  print "" ;;;
  print_error ("Erro ao processar pergunta: " +:+ e) ;;;
  emit (LoggedException "Error processing question:") ;;;
  print_warning "Tente fazer a pergunta de outra forma." ;;;
  print "" ;;;
  ret Continue.

(** main.py, lines 234-282: one pass through the loop, the whole [try]
    statement. *)
Definition loop_body (qa_chain : RetrievalQA) : Py LoopCtl :=
  try_except2 (turn qa_chain) on_interrupt on_exception.

(** main.py, lines 233-282: [while True], cut after [fuel] turns. *)
Fixpoint qa_loop (fuel : nat) (qa_chain : RetrievalQA) : Py Ending :=
  match fuel with
  | O => ret OutOfFuel
  | S fuel' =>
      ctl <- loop_body qa_chain ;;
      match ctl with
      | Break => ret Finished
      | Continue => qa_loop fuel' qa_chain
      end
  end.

(** main.py, lines 221-233: the banner, and [question_count = 0] *)
Definition start_session : Py unit :=
  print "" ;;;
  print_header "✅ JURISRAG está pronto para responder perguntas!" ;;;
  print "" ;;;
  print_color "Instruções:" CYAN BRIGHT ;;;
  print "  • Digite sua pergunta sobre legislação brasileira" ;;;
  print "  • Digite 'sair' para encerrar o programa" ;;;
  print "  • Digite 'limpar' para limpar a tela" ;;;
  print "" ;;;
  emit (Logged INFO "Interactive Q&A session started") ;;;
  set_question_count 0.

(** main.py, lines 195-288 *)
Definition main (fuel : nat) : Py Ending :=
  print_header "📚 JURISRAG - Sistema de Perguntas e Respostas Jurídicas" ;;;
  print "" ;;;
  emit (Logged INFO "Starting JURISRAG Q&A system") ;;;
  try_except
    (qa_chain <- setup ;;
     start_session ;;;
     qa_loop fuel qa_chain)
    (fun e =>
       print "" ;;;
       print_error ("Erro fatal: " +:+ e) ;;;
       emit (LoggedException "Fatal error:") ;;;
       sys_exit 1).

End WithEnv.
End Main.

(** ** list_processed_docs.py *)

Module ListDocs.

(** colorama's escape sequences, which this script splices into the lines
    it prints. *)
Record Colorama := mkColorama {
  fore : Fore -> string;
  style : Style -> string;
  reset_all : string
}.

(** The dict the script builds while grouping, in insertion order: a
    category and the names filed under it so far. *)
Definition Grouped := list (string * list string).

(** The dict the script dumps as JSON. *)
Record DocList := mkDocList {
  data_directory : string;
  total_documents : nat;
  total_categories : nat;
  generated_at : string;
  categories : Grouped
}.

(** *** pathlib, on POSIX paths *)

(** [s.split(sep)] *)
Fixpoint split_on (sep : ascii) (s : string) : list string :=
  match s with
  | EmptyString => [""]
  | String c rest =>
      if Ascii.eqb c sep then "" :: split_on sep rest
      else match split_on sep rest with
           | h :: t => String c h :: t
           | [] => [String c ""]
           end
  end.

(** The root of a POSIX path: "/" for one leading slash and for three or
    more, "//" for exactly two, none for a relative path. *)
Definition root (p : string) : list string :=
  match p with
  | String "/" (String "/" (String "/" _)) => ["/"]
  | String "/" (String "/" _) => ["//"]
  | String "/" _ => ["/"]
  | _ => []
  end.

(** [Path(p).parts]: the root if the path is absolute, then the
    components that are neither empty nor ".". *)
Definition parts (p : string) : list string :=
  root p ++ List.filter (fun c => negb (c =? "") && negb (c =? ".")) (split_on "/" p).

(** The parts of [file] after those of [base], when it starts with them. *)
Fixpoint strip_prefix (file base : list string) : option (list string) :=
  match base, file with
  | [], rest => Some rest
  | b :: base', f :: file' => if b =? f then strip_prefix file' base' else None
  | _ :: _, [] => None
  end.

(** Parts that start with a root. *)
Definition is_absolute (p : list string) : bool :=
  match p with
  | first :: _ => (first =? "/") || (first =? "//")
  | [] => false
  end.

(** [file.relative_to(base)] on parts: what is left of [file] below
    [base]; ValueError ([None]) when [file] does not start with [base],
    and when [base] is the empty path and [file] is absolute. *)
Definition relative_to (file base : list string) : option (list string) :=
  match base with
  | [] => if is_absolute file then None else Some file
  | _ => strip_prefix file base
  end.

(** [rel_path.name] *)
Definition name (rel_path : list string) : string := List.last rel_path "".

(** [str(rel_path.parent) if rel_path.parent != Path(".") else "Root"] *)
Definition parent (rel_path : list string) : string :=
  match removelast rel_path with
  | [] => "Root"
  | above => join "/" above
  end.

(** The order of paths: their parts, compared one by one. *)
Fixpoint parts_compare (p q : list string) : comparison :=
  match p, q with
  | [], [] => Eq
  | [], _ :: _ => Lt
  | _ :: _, [] => Gt
  | a :: p', b :: q' =>
      match String.compare a b with
      | Eq => parts_compare p' q'
      | c => c
      end
  end.

Definition path_le (p q : string) : Prop :=
  parts_compare (parts p) (parts q) <> Gt.

Definition str_le (a b : string) : Prop := String.leb a b = true.

#[global] Instance path_le_dec : RelDecision path_le :=
  fun p q => decide (parts_compare (parts p) (parts q) <> Gt).

#[global] Instance str_le_dec : RelDecision str_le :=
  fun a b => decide (String.leb a b = true).

(** [sorted(...)] on paths and on strings. *)
Definition sorted_paths (l : list string) : list string := merge_sort path_le l.
Definition sorted_strings (l : list string) : list string := merge_sort str_le l.

(** *** The grouping, lines 33-43 *)

(** [if parent not in grouped: grouped[parent] = []] followed by
    [grouped[parent].append(name)] *)
Fixpoint add_to_group (parent name : string) (grouped : Grouped) : Grouped :=
  match grouped with
  | [] => [(parent, [name])]
  | (category, names) :: others =>
      if category =? parent then (category, (names ++ [name])%list) :: others
      else (category, names) :: add_to_group parent name others
  end.

(** The [for file in docx_files] loop: the dict at its end, or the file on
    which [relative_to] raises ValueError. *)
Fixpoint group_files (data_dir : string) (docx_files : list string)
    (grouped : Grouped) : string + Grouped :=
  match docx_files with
  | [] => inr grouped
  | file :: others =>
      match relative_to (parts file) (parts data_dir) with
      | Some rel_path =>
          group_files data_dir others (add_to_group (parent rel_path) (name rel_path) grouped)
      | None => inl file
      end
  end.

(** [d[key] = value] *)
Fixpoint dict_set (key : string) (value : list string) (d : Grouped) : Grouped :=
  match d with
  | [] => [(key, value)]
  | (k, v) :: others =>
      if k =? key then (k, value) :: others else (k, v) :: dict_set key value others
  end.

(** Lines 70-71: [for category, files in grouped.items():
    doc_list["categories"][category] = sorted(files)] *)
Definition sorted_categories (grouped : Grouped) : Grouped :=
  fold_left (fun d entry => dict_set (fst entry) (sorted_strings (snd entry)) d) grouped [].

(** Lines 62-71 *)
Definition make_doc_list (data_dir now : string) (docx_files : list string)
    (grouped : Grouped) : DocList :=
  mkDocList data_dir (length docx_files) (length grouped) now (sorted_categories grouped).

(** [grouped[category]] *)
Definition lookup_group (category : string) (grouped : Grouped) : option (list string) :=
  snd <$> List.find (fun entry => fst entry =? category) grouped.

(** [f"{i:3d}"] *)
Definition pad3 (i : nat) : string :=
  let digits := str_of_nat i in
  str_repeat " " (3 - String.length digits) +:+ digits.

(** [lines[-n:]] for [n] above zero *)
Definition last_lines (n : nat) (lines : list string) : list string :=
  skipn (length lines - n) lines.

Section WithEnv.
Variable env : Env.
Variable colors : Colorama.

(** [datetime.now().isoformat()] *)
Variable now : string.

(** [os.path.getsize(log_file)] and [f.readlines()] of jurisrag.log. *)
Variable log_size : N.
Variable log_lines : list string.

(** Lines 14-18 *)
Definition print_header (message : string) : Py unit :=
  print (style colors BRIGHT +:+ fore colors CYAN +:+ str_repeat "=" 70
         +:+ reset_all colors) ;;;
  print (style colors BRIGHT +:+ fore colors CYAN +:+ message +:+ reset_all colors) ;;;
  print (style colors BRIGHT +:+ fore colors CYAN +:+ str_repeat "=" 70
         +:+ reset_all colors).

(** Lines 56-57: [for i, filename in enumerate(sorted(files), 1)] *)
Fixpoint print_files (i : nat) (filenames : list string) : Py unit :=
  match filenames with
  | [] => ret tt
  | filename :: others =>
      print ("   " +:+ pad3 i +:+ ". " +:+ filename) ;;;
      print_files (S i) others
  end.

(** Lines 53-58: [for category in sorted(grouped.keys())] *)
Fixpoint print_categories (keys : list string) (grouped : Grouped) : Py unit :=
  match keys with
  | [] => ret tt
  | category :: others =>
      match lookup_group category grouped with
      | Some files =>
          print (style colors BRIGHT +:+ fore colors CYAN +:+ "📁 " +:+ category
                 +:+ reset_all colors +:+ " (" +:+ str_of_nat (length files)
                 +:+ " arquivos)") ;;;
          print_files 1 (sorted_strings files) ;;;
          print "" ;;;
          print_categories others grouped
      | None => raise (Exception (str_repr category))
      end
  end.

(** Lines 73-74: [open(output_file, 'w')] raises IsADirectoryError when
    the path is a folder; otherwise [json.dump(doc_list, f, ...)] leaves a
    regular file there.  The text of a file is not part of a [Node]. *)
Definition json_dump (doc_list : DocList) (output_file : string) : Py unit :=
  is_dir <- path_isdir output_file ;;
  if is_dir then
    raise (Exception ("[Errno 21] Is a directory: " +:+ str_repr output_file))
  else write_fs output_file RegularFile.

(** Lines 20-76.  The text of the ValueError of [relative_to] depends on
    the version of Python. *)
Definition list_source_documents : Py unit :=
  let data_dir := default_data_dir in
  found <- path_exists data_dir ;;
  if negb found then
    print (fore colors RED +:+ "❌ Diretório não encontrado: " +:+ data_dir
           +:+ reset_all colors)
  else
    print (fore colors BLUE +:+ "ℹ️  Scanning directory: " +:+ data_dir
           +:+ reset_all colors +:+ nl) ;;;
    found_files <- call (CallRglob data_dir "*.docx") (rglob env data_dir "*.docx") ;;
    let docx_files := sorted_paths found_files in
    match group_files data_dir docx_files [] with
    | inl file =>
        raise (Exception (str_repr file +:+ " is not in the subpath of "
                          +:+ str_repr data_dir))
    | inr grouped =>
        print_header "📚 JURISRAG - Lista de Documentos" ;;;
        print "" ;;;
        print (fore colors GREEN +:+ "✅ Total de documentos encontrados: "
               +:+ str_of_nat (length docx_files) +:+ reset_all colors) ;;;
        print (fore colors BLUE +:+ "ℹ️  Total de categorias: "
               +:+ str_of_nat (length grouped) +:+ reset_all colors) ;;;
        print "" ;;;
        print_categories (sorted_strings (map fst grouped)) grouped ;;;
        let output_file := "processed_documents.json" in
        let doc_list := make_doc_list data_dir now docx_files grouped in
        json_dump doc_list output_file ;;;
        print (fore colors GREEN +:+ "✅ Lista salva em: " +:+ output_file
               +:+ reset_all colors)
    end.

(** [os.listdir(path)]: NotADirectoryError on a regular file. *)
Definition os_listdir (folder : string) (node : Node)
    : Py (list (string * option nat)) :=
  match node with
  | RegularFile => raise (Exception ("[Errno 20] Not a directory: " +:+ str_repr folder))
  | _ => ret (listdir env node)
  end.

(** Lines 78-102 *)
Definition check_vectorstore_status : Py unit :=
  let vectorstore_path := "vectorstore" in
  print "" ;;;
  print_header "📊 Status do Vectorstore" ;;;
  print "" ;;;
  s <- get_state ;;
  match fs s !! vectorstore_path with
  | Some node =>
      files <- os_listdir vectorstore_path node ;;
      if negb (is_empty files) then
        let total_size := sum_nat (omap snd files) in
        print (fore colors GREEN +:+ "✅ Vectorstore criado" +:+ reset_all colors) ;;;
        print ("   📁 Localização: " +:+ vectorstore_path +:+ "/") ;;;
        print ("   📄 Arquivos: " +:+ str_of_nat (length files)) ;;;
        print ("   💾 Tamanho total: " +:+ format_mb (N.of_nat total_size) +:+ " MB")
      else
        print (fore colors YELLOW +:+ "⚠️  Vectorstore vazio" +:+ reset_all colors)
  | None =>
      print (fore colors RED +:+ "❌ Vectorstore não encontrado" +:+ reset_all colors) ;;;
      print "   Execute 'python load.py' para criar o vectorstore"
  end.

(** Lines 124-125: [for line in lines[-5:]] *)
Fixpoint print_lines (lines : list string) : Py unit :=
  match lines with
  | [] => ret tt
  | line :: others => print ("   " +:+ rstrip line) ;;; print_lines others
  end.

(** Lines 104-127.  [open] raises IsADirectoryError when the path is a
    folder. *)
Definition check_log_file : Py unit :=
  let log_file := "jurisrag.log" in
  print "" ;;;
  print_header "📝 Status dos Logs" ;;;
  print "" ;;;
  s <- get_state ;;
  match fs s !! log_file with
  | Some RegularFile =>
      let size := log_size in
      let lines := log_lines in
      print (fore colors GREEN +:+ "✅ Arquivo de log encontrado" +:+ reset_all colors) ;;;
      print ("   📁 Localização: " +:+ log_file) ;;;
      print ("   📄 Linhas: " +:+ str_of_nat (length lines)) ;;;
      print ("   💾 Tamanho: " +:+ format_kb size +:+ " KB") ;;;
      print (nl +:+ style colors BRIGHT +:+ "Últimas 5 linhas do log:"
             +:+ reset_all colors) ;;;
      print_lines (last_lines 5 lines)
  | Some _ => raise (Exception ("[Errno 21] Is a directory: " +:+ str_repr log_file))
  | None =>
      print (fore colors YELLOW +:+ "⚠️  Arquivo de log não encontrado"
             +:+ reset_all colors)
  end.

(** Lines 129-133: the [__main__] block *)
Definition main : Py unit :=
  list_source_documents ;;;
  check_vectorstore_status ;;;
  check_log_file ;;;
  print "".

End WithEnv.

(** A line on the console through [print]. *)
Definition is_print (e : Event) : Prop :=
  match e with
  | Stdout _ => True
  | _ => False
  end.

(** A run that only prints: it ends normally in the state it started in. *)
Definition only_prints {A} (r : Run A) (s : State) : Prop :=
  (exists a, outcome r = Ret a) /\ after r = s /\ Forall is_print (trace r).

(** Line 120: the size of the log in KB. *)
Definition format_size_line (size : N) : string :=
  "   💾 Tamanho: " +:+ format_kb size +:+ " KB".

(** What [check_log_file] prints above the lines of the log. *)
Definition log_heading (colors : Colorama) (size : N) (lines : list string) : list Event :=
  [ Stdout "";
    Stdout (style colors BRIGHT +:+ fore colors CYAN +:+ str_repeat "=" 70
            +:+ reset_all colors);
    Stdout (style colors BRIGHT +:+ fore colors CYAN +:+ "📝 Status dos Logs"
            +:+ reset_all colors);
    Stdout (style colors BRIGHT +:+ fore colors CYAN +:+ str_repeat "=" 70
            +:+ reset_all colors);
    Stdout "";
    Stdout (fore colors GREEN +:+ "✅ Arquivo de log encontrado" +:+ reset_all colors);
    Stdout ("   📁 Localização: " +:+ "jurisrag.log");
    Stdout ("   📄 Linhas: " +:+ str_of_nat (length lines));
    Stdout (format_size_line size);
    Stdout (nl +:+ style colors BRIGHT +:+ "Últimas 5 linhas do log:"
            +:+ reset_all colors) ].

(** How many names a dict of groups holds. *)
Definition names_in (grouped : Grouped) : nat :=
  sum_nat (map (fun entry => length (snd entry)) grouped).

(** [name] is filed under [category]. *)
Definition listed (grouped : Grouped) (category name : string) : Prop :=
  exists names, In (category, names) grouped /\ In name names.

#[global] Instance str_le_total : Total str_le :=
  fun a b => String.leb_total a b.

End ListDocs.

(** ** A concrete environment, for running the scripts *)

Module Sample.

Definition lei : Document :=
  mkDocument "Art. 1 Toda pessoa e capaz de direitos e deveres na ordem civil."
             [("source", "codigo_civil.docx")].

Definition ada : Embeddings := mkEmbeddings "text-embedding-ada-002".

Definition index : VectorStore := mkVectorStore [lei] [[1%Z; 0%Z]] ada.

(** Services that work, except that the chat model times out on the
    question "falha". *)
Definition env : Env := {|
  os_name := "posix";
  getenv := fun name => if name =? "OPENAI_API_KEY" then Some "sk-test" else None;
  rglob := fun _ _ => Ok ["codigo_civil.docx"];
  loader_load := fun _ => Ok [lei];
  splitter_split_documents := fun _ docs => Ok docs;
  new_OpenAIEmbeddings := Ok ada;
  embed_documents := fun _ texts => Ok (map (fun _ => [1%Z; 0%Z]) texts);
  write_index := fun _ _ => Ok tt;
  listdir := fun _ => [("index.faiss", Some 45%nat); ("index.pkl", Some 120%nat)];
  read_index := fun node _ _ =>
    match node with
    | Some (IndexFolder vs) => Ok vs
    | _ => Fails "could not open vectorstore/index.faiss"
    end;
  new_ChatOpenAI := fun m t => Ok (mkChatOpenAI m t);
  similarity_search := fun vs _ k => Ok (firstn k (vs_documents vs));
  chat_completion := fun _ _ q =>
    if q =? "falha" then Fails "Request timed out." else Ok "Sim, toda pessoa."
|}.

Definition corpus_only : gmap string Node := {[ default_data_dir := Folder ]}.

Definition with_index : gmap string Node := <[ "vectorstore" := IndexFolder index ]> corpus_only.

Definition start (files : gmap string Node) (lines : list Input) : State :=
  mkState files lines 0.

(** The chain [create_rag_chain] builds over [index]. *)
Definition chain : RetrievalQA :=
  mkRetrievalQA (mkChatOpenAI "gpt-3.5-turbo" 0) "stuff" (mkRetriever index 5) true.

Definition cdc : Document :=
  mkDocument "Art. 6 Sao direitos basicos do consumidor a protecao da vida e da saude."
             [("source", "codigo_consumidor.docx")].

(** The same services over a corpus of two files, where the loader hands
    the documents over in the order its threads finish when it runs with
    [use_multithreading]. *)
Definition threaded : Env := {|
  os_name := os_name env;
  getenv := getenv env;
  rglob := fun _ _ => Ok ["codigo_civil.docx"; "codigo_consumidor.docx"];
  loader_load := fun l => if use_multithreading l then Ok [cdc; lei] else Ok [lei; cdc];
  splitter_split_documents := splitter_split_documents env;
  new_OpenAIEmbeddings := new_OpenAIEmbeddings env;
  embed_documents := embed_documents env;
  write_index := write_index env;
  listdir := listdir env;
  read_index := read_index env;
  new_ChatOpenAI := new_ChatOpenAI env;
  similarity_search := similarity_search env;
  chat_completion := chat_completion env
|}.

End Sample.


(** ** Sessions and first runs in that environment *)

Module Runs.

Definition question : string := "O que diz o artigo 1?".

(** A no-break space (U+00A0) and an em space (U+2003). *)
Definition nbsp : string := String (ascii_of_nat 194) (String (ascii_of_nat 160) "").
Definition em_space : string :=
  String (ascii_of_nat 226) (String (ascii_of_nat 128) (String (ascii_of_nat 131) "")).

(** The question as it is typed, between white space of several kinds. *)
Definition typed : string := nbsp +:+ " O que diz o artigo 1? " +:+ em_space.

(** A session on the saved index: one question, then "sair". *)
Definition asking : State :=
  Sample.start Sample.with_index [Line typed; Line "sair"].

(** A session whose first question makes the chat model time out. *)
Definition failing : State :=
  Sample.start Sample.with_index [Line "falha"; Line "sair"].

(** A line of white space only: a space, a no-break space, an em space. *)
Definition spaces : string := " " +:+ nbsp +:+ em_space.

(** A session that starts with a blank line. *)
Definition blank : State :=
  Sample.start Sample.with_index [Line spaces; Line "sair"].

(** A first run, with the corpus on disk and no index yet. *)
Definition fresh : State := Sample.start Sample.corpus_only [].

End Runs.

(** ** Further environments and sessions *)

Module Cases.

(** The sample services with the key left at its placeholder. *)
Definition no_key : Env := {|
  os_name := os_name Sample.env;
  getenv := fun _ => Some "your_openai_api_key_here";
  rglob := rglob Sample.env;
  loader_load := loader_load Sample.env;
  splitter_split_documents := splitter_split_documents Sample.env;
  new_OpenAIEmbeddings := new_OpenAIEmbeddings Sample.env;
  embed_documents := embed_documents Sample.env;
  write_index := write_index Sample.env;
  listdir := listdir Sample.env;
  read_index := read_index Sample.env;
  new_ChatOpenAI := new_ChatOpenAI Sample.env;
  similarity_search := similarity_search Sample.env;
  chat_completion := chat_completion Sample.env
|}.

(** The sample services over a directory in which the scan finds nothing. *)
Definition no_files : Env := {|
  os_name := os_name Sample.env;
  getenv := getenv Sample.env;
  rglob := fun _ _ => Ok [];
  loader_load := fun _ => Ok [];
  splitter_split_documents := splitter_split_documents Sample.env;
  new_OpenAIEmbeddings := new_OpenAIEmbeddings Sample.env;
  embed_documents := embed_documents Sample.env;
  write_index := write_index Sample.env;
  listdir := listdir Sample.env;
  read_index := read_index Sample.env;
  new_ChatOpenAI := new_ChatOpenAI Sample.env;
  similarity_search := similarity_search Sample.env;
  chat_completion := chat_completion Sample.env
|}.

(** A disk with neither the corpus nor an index. *)
Definition empty_disk : State := Sample.start ∅ [].

(** A disk where "vectorstore" is a plain folder, not a saved index. *)
Definition stale : State :=
  Sample.start (<[ "vectorstore" := Folder ]> Sample.corpus_only) [Line "sair"].

(** A session that is interrupted at its first prompt. *)
Definition interrupted : State := Sample.start Sample.with_index [CtrlC; Line "sair"].

(** The commands as they may be typed: in capitals, between white space
    that is not all ASCII. *)
Definition limpar : string := Runs.em_space +:+ "Limpar ".
Definition sair : string := Runs.nbsp +:+ " SAIR" +:+ Runs.nbsp.

(** A session that clears the screen, then leaves. *)
Definition clearing : State :=
  Sample.start Sample.with_index [Line limpar; Line sair].

(** A session whose first line is the exit word. *)
Definition leaving : State := Sample.start Sample.with_index [Line sair].

(** A question, a blank line, then the exit word. *)
Definition three_lines : State :=
  Sample.start Sample.with_index [Line Runs.typed; Line Runs.spaces; Line sair].

Definition esc : string := String (ascii_of_nat 27) "".

(** colorama's ANSI sequences. *)
Definition ansi : ListDocs.Colorama := {|
  ListDocs.fore := fun c =>
    match c with
    | RED => esc +:+ "[31m" | GREEN => esc +:+ "[32m" | YELLOW => esc +:+ "[33m"
    | BLUE => esc +:+ "[34m" | CYAN => esc +:+ "[36m" | WHITE => esc +:+ "[37m"
    end;
  ListDocs.style := fun st =>
    match st with BRIGHT => esc +:+ "[1m" | NORMAL => esc +:+ "[22m" end;
  ListDocs.reset_all := esc +:+ "[0m"
|}.

(** Three files: one in the directory itself, two in a folder. *)
Definition shelf : list string :=
  [ default_data_dir +:+ "/consumidor/sumulas.docx";
    default_data_dir +:+ "/codigo_civil.docx";
    default_data_dir +:+ "/consumidor/cdc.docx" ].

(** The sample services over that corpus. *)
Definition library : Env := {|
  os_name := os_name Sample.env;
  getenv := getenv Sample.env;
  rglob := fun _ _ => Ok shelf;
  loader_load := loader_load Sample.env;
  splitter_split_documents := splitter_split_documents Sample.env;
  new_OpenAIEmbeddings := new_OpenAIEmbeddings Sample.env;
  embed_documents := embed_documents Sample.env;
  write_index := write_index Sample.env;
  listdir := listdir Sample.env;
  read_index := read_index Sample.env;
  new_ChatOpenAI := new_ChatOpenAI Sample.env;
  similarity_search := similarity_search Sample.env;
  chat_completion := chat_completion Sample.env
|}.

(** The dict the grouping makes of [shelf]. *)
Definition shelf_grouped : ListDocs.Grouped :=
  [ ("Root", ["codigo_civil.docx"]); ("consumidor", ["cdc.docx"; "sumulas.docx"]) ].

Definition stamp : string := "2025-01-01T00:00:00".

(** A log of seven lines, the last with a no-break space before its
    newline, and a disk that holds it. *)
Definition log : list string :=
  (map (fun n => "line " +:+ n +:+ nl) ["1"; "2"; "3"; "4"; "5"; "6"]
   ++ ["line 7" +:+ Runs.nbsp +:+ nl])%list.

Definition log_bytes : N := 1536.

Definition logged : State :=
  Sample.start (<[ "jurisrag.log" := RegularFile ]> Sample.corpus_only) [].

End Cases.

(** * What is read off a run *)

(** The third-party calls of a trace, in order. *)
Definition calls_of (t : list Event) : list Call :=
  omap (fun e => match e with Ext c => Some c | _ => None end) t.

(** [t] followed by what the run [r] leaves. *)
Definition prepend {A} (t : list Event) (r : Run A) : Run A :=
  mkRun (outcome r) (after r) (t ++ trace r).

Definition exit_words : list string := ["sair"; "exit"; "quit"].
Definition clear_words : list string := ["limpar"; "clear"; "cls"].

(** A stripped line that is neither empty nor one of the commands. *)
Definition is_question (query : string) : bool :=
  negb (query =? "") && negb (str_in (lower query) exit_words)
  && negb (str_in (lower query) clear_words).

Definition the_prompt : Event := Prompt GREEN "💬 Pergunta: ".

(** What [print_error "Vectorstore not found!"] writes to the console. *)
Definition not_found_message : Event :=
  StdoutColor BRIGHT RED ("❌ " +:+ "Vectorstore not found!").

(** A retrieval asks for five chunks. *)
Definition search_k5 (e : Event) : Prop :=
  match e with
  | Ext (CallSearch _ _ k) => k = 5%nat
  | _ => True
  end.

(** What the [except Exception] clause of the loop writes. *)
Definition question_error_report (msg : string) : list Event :=
  [ Stdout "";
    StdoutColor BRIGHT RED ("❌ " +:+ "Erro ao processar pergunta: " +:+ msg);
    Logged ERROR ("Erro ao processar pergunta: " +:+ msg);
    LoggedException "Error processing question:";
    StdoutColor BRIGHT YELLOW ("⚠️  " +:+ "Tente fazer a pergunta de outra forma.");
    Logged WARNING "Tente fazer a pergunta de outra forma.";
    Stdout "" ].

(** What [print_info "Loading vectorstore from disk..."], the first
    statement of [load_vectorstore], writes to the console. *)
Definition loading_message : Event :=
  StdoutColor NORMAL BLUE ("ℹ️  " +:+ "Loading vectorstore from disk...").

(** ** Observations on the ingestion *)

Inductive Step :=
| Scan | Parse | Chunk | EmbedBatch | BuildIndex | Persist | ReportSuccess.

(** The step of the ingestion an event stands for: the directory scan, the
    loader's parse, the splitter, the embedding call, the index build, the
    completed write of the index, and the success banner of load.py. *)
Definition step_of (e : Event) : option Step :=
  match e with
  | Ext (CallRglob _ _) => Some Scan
  | Ext (CallLoad _) => Some Parse
  | Ext (CallSplit _ _) => Some Chunk
  | Ext (CallEmbed _ _) => Some EmbedBatch
  | Ext (CallBuildIndex _ _) => Some BuildIndex
  | Wrote _ => Some Persist
  | StdoutColor BRIGHT CYAN text =>
      if text =? Load.success_header then Some ReportSuccess else None
  | _ => None
  end.

Definition steps_of (t : list Event) : list Step := omap step_of t.

Definition ingestion_steps : list Step :=
  [Scan; Parse; Chunk; EmbedBatch; BuildIndex; Persist; ReportSuccess].

(** Calls that build an index, and the call that loads one. *)
Definition is_build_call (c : Call) : bool :=
  match c with
  | CallLoad _ | CallSplit _ _ | CallEmbed _ _ | CallBuildIndex _ _
  | CallSaveLocal _ _ => true
  | _ => false
  end.

Definition is_load_call (c : Call) : bool :=
  match c with
  | CallLoadLocal _ _ => true
  | _ => false
  end.

(** The loader each script builds for the default directory. *)
Definition load_py_loader : DirectoryLoader :=
  mkDirectoryLoader default_data_dir "**/*.docx" Docx2txtLoader true true.
Definition main_py_loader : DirectoryLoader :=
  mkDirectoryLoader default_data_dir "**/*.docx" Docx2txtLoader true false.

(** The splitter both scripts build when called with their defaults. *)
Definition default_splitter : RecursiveCharacterTextSplitter :=
  mkSplitter default_chunk_size default_chunk_overlap len.

(** A call with the loader's threading switched off. *)
Definition single_threaded (c : Call) : Call :=
  match c with
  | CallLoad l =>
      CallLoad (mkDirectoryLoader (path l) (glob l) (loader_cls l) (show_progress l) false)
  | _ => c
  end.

(** Every chunk has exactly [n] characters. *)
Definition fixed_size (n : nat) (chunks : list Document) : bool :=
  forallb (fun c => (str_len (page_content c) =? n)%nat) chunks.

(** ** Observations on the console *)

Definition level_no (l : Level) : nat :=
  match l with DEBUG => 10 | INFO => 20 | WARNING => 30 | ERROR => 40 end.

(** Both scripts, lines 21-28: [logging.basicConfig(level=logging.INFO)]
    with a handler on [sys.stdout]; a record below INFO is dropped. *)
Definition logging_level : nat := 20.

(** The text an event puts on the user's console, if any. *)
Definition console_text (e : Event) : option string :=
  match e with
  | Stdout text | StdoutColor _ _ text | Prompt _ text | LoggedException text => Some text
  | Logged level text =>
      if (logging_level <=? level_no level)%nat then Some text else None
  | Wrote _ | Ext _ => None
  end.

Definition console (t : list Event) : list string := omap console_text t.

(** [needle in hay] *)
Definition mentions (needle hay : string) : bool :=
  match index 0 needle hay with Some _ => true | None => false end.

(** Some console line shows the document: its text or one of the values of
    its metadata. *)
Definition shows_document (lines : list string) (doc : Document) : bool :=
  existsb (fun line => mentions (page_content doc) line
                       || existsb (fun kv => mentions (snd kv) line) (metadata doc))
          lines.

(** What a question that was answered puts on the console. *)
Definition answer_console (text : string) (sources : option (list Document))
    : list string :=
  [ ""; "ℹ️  " +:+ "Processando sua pergunta..."; "Processando sua pergunta...";
    ""; "📝 Resposta:"; str_repeat "-" 70; text; str_repeat "-" 70 ]
  ++ match sources with
     | None | Some [] => []
     | Some docs =>
         [ "";
           "ℹ️  " +:+ "Baseado em " +:+ str_of_nat (length docs) +:+ " documentos relevantes";
           "Baseado em " +:+ str_of_nat (length docs) +:+ " documentos relevantes" ]
     end
  ++ [ "" ].

(** ** When nothing fails *)

(** load.py: the key is configured, the directory exists, the scan finds a
    file, and every third-party call answers, with documents and chunks. *)
Definition load_ok (env : Env) (s : State) : Prop :=
  key_unconfigured (getenv env "OPENAI_API_KEY") = false
  /\ fs s !! default_data_dir <> None
  /\ exists files docs chunks emb vectors,
      rglob env default_data_dir "*.docx" = Ok files
      /\ (length files =? 0)%nat = false
      /\ loader_load env load_py_loader = Ok docs
      /\ is_empty docs = false
      /\ splitter_split_documents env default_splitter docs = Ok chunks
      /\ is_empty chunks = false
      /\ new_OpenAIEmbeddings env = Ok emb
      /\ embed_documents env emb (map page_content chunks) = Ok vectors
      /\ write_index env (mkVectorStore chunks vectors emb) "vectorstore" = Ok tt.

(** main.py, an index on disk: it can be read back into [vs]. *)
Definition index_readable (env : Env) (node : Node) (vs : VectorStore) : Prop :=
  exists emb,
    new_OpenAIEmbeddings env = Ok emb
    /\ read_index env (Some node) emb true = Ok vs.

(** main.py, no index on disk: the directory exists and every third-party
    call of the build answers, with documents and chunks, giving [vs]. *)
Definition index_buildable (env : Env) (s : State) (vs : VectorStore) : Prop :=
  fs s !! default_data_dir <> None
  /\ exists docs chunks emb vectors,
      loader_load env main_py_loader = Ok docs
      /\ is_empty docs = false
      /\ splitter_split_documents env default_splitter docs = Ok chunks
      /\ is_empty chunks = false
      /\ new_OpenAIEmbeddings env = Ok emb
      /\ embed_documents env emb (map page_content chunks) = Ok vectors
      /\ vs = mkVectorStore chunks vectors emb
      /\ write_index env vs "vectorstore" = Ok tt.

(** main.py before the session: the key is configured, the index is read
    or built, and the chat model is created. *)
Definition setup_ok (env : Env) (s : State) (qa_chain : RetrievalQA) : Prop :=
  key_unconfigured (getenv env "OPENAI_API_KEY") = false
  /\ match fs s !! "vectorstore" with
     | Some node => index_readable env node (vectorstore (retriever qa_chain))
     | None => index_buildable env s (vectorstore (retriever qa_chain))
     end
  /\ new_ChatOpenAI env "gpt-3.5-turbo" 0 = Ok (llm qa_chain)
  /\ qa_chain = mkRetrievalQA (llm qa_chain) "stuff"
                              (mkRetriever (vectorstore (retriever qa_chain)) 5) true.

(** What [print_info ("Loading documents from: " + data_dir)], the first
    statement of [load_documents], writes for the default directory. *)
Definition building_message : Event :=
  StdoutColor NORMAL BLUE ("ℹ️  " +:+ "Loading documents from: " +:+ default_data_dir).

(** Calls of the ingestion proper: everything from the loader to the
    write of the index. *)
Definition is_ingestion_call (c : Call) : bool :=
  match c with
  | CallLoad _ | CallSplit _ _ | CallNewEmbeddings | CallEmbed _ _
  | CallBuildIndex _ _ | CallSaveLocal _ _ => true
  | _ => false
  end.

(** The texts handed to [logger.debug]. *)
Definition debug_records (t : list Event) : list string :=
  omap (fun e => match e with Logged DEBUG text => Some text | _ => None end) t.

(** ** Observations on a session *)

(** An input that ends the session at the prompt: Ctrl-C, or a line that
    is one of the exit words once stripped and lowered. *)
Definition stops (i : Input) : bool :=
  match i with
  | CtrlC => true
  | Line text => str_in (lower (strip text)) exit_words
  end.

(** The heading main.py prints above every answer. *)
Definition is_answer_heading (e : Event) : bool :=
  match e with
  | StdoutColor BRIGHT CYAN text => text =? "📝 Resposta:"
  | _ => false
  end.

(** How many answers a trace shows. *)
Definition answers_shown (t : list Event) : nat :=
  length (filter is_answer_heading t).

(** What the exit command puts on the console after [count] answers. *)
Definition farewell_console (count : nat) : list string :=
  [ "💬 Pergunta: "; "";
    "✅ " +:+ "Encerrando JURISRAG. " +:+ str_of_nat count
    +:+ " perguntas respondidas. Até logo!";
    "Encerrando JURISRAG. " +:+ str_of_nat count +:+ " perguntas respondidas. Até logo!";
    "Session ended. " +:+ str_of_nat count +:+ " questions answered." ].

(** What main.py writes before its [try]. *)
Definition main_banner : list Event :=
  [ StdoutColor BRIGHT CYAN (str_repeat "=" 70);
    StdoutColor BRIGHT CYAN "📚 JURISRAG - Sistema de Perguntas e Respostas Jurídicas";
    StdoutColor BRIGHT CYAN (str_repeat "=" 70);
    Stdout "";
    Logged INFO "Starting JURISRAG Q&A system" ].

(** The three values of OPENAI_API_KEY both scripts refuse. *)
Definition key_refused (api_key : option string) : Prop :=
  api_key = None \/ api_key = Some "" \/ api_key = Some "your_openai_api_key_here".

(** What [print_error] puts on the console for [message]. *)
Definition error_line (message : string) : Event :=
  StdoutColor BRIGHT RED ("❌ " +:+ message).

(** A scan of a directory. *)
Definition is_scan (e : Event) : Prop :=
  match e with
  | Ext (CallRglob _ _) => True
  | _ => False
  end.

(** ** Failures before the session *)

(** How a run ends when something fails before anything can be asked:
    with an error report and exit code 1, or on a Ctrl-C that no clause
    catches. *)
Inductive Failure :=
| Reported (report : Event)
| Uncaught.

(** What [print_warning] puts on the console for [message]. *)
Definition warning_line (message : string) : Event :=
  StdoutColor BRIGHT YELLOW ("⚠️  " +:+ message).

(** A call that has to answer: when it fails, the report is [text] with
    the message of the exception; a Ctrl-C while it runs ends as
    [interrupt] says. *)
Definition needs {A} (answer : Resp A) (text : string) (interrupt : Failure)
    (next : A -> option Failure) : option Failure :=
  match answer with
  | Ok a => next a
  | Fails msg => Some (Reported (error_line (text +:+ msg)))
  | Interrupted => Some interrupt
  end.

(** The first thing that fails in a run of load.py, with the report it
    owes; [None] when nothing fails.  The scan runs outside every [try]
    of [load_documents], so its exception is the main block's "Unexpected
    error"; the main block reports a Ctrl-C wherever it arrives. *)
Definition load_failure (env : Env) (s : State) : option Failure :=
  let interrupt := Reported (warning_line "Process interrupted by user") in
  if key_unconfigured (getenv env "OPENAI_API_KEY") then
    Some (Reported (error_line "OpenAI API key not configured!"))
  else
    match fs s !! default_data_dir with
    | None => Some (Reported (error_line ("Directory not found: " +:+ default_data_dir)))
    | Some _ =>
        needs (rglob env default_data_dir "*.docx") "Unexpected error: " interrupt
          (fun files =>
        if (length files =? 0)%nat then
          Some (Reported (error_line ("No .docx files found in " +:+ default_data_dir)))
        else
        needs (loader_load env load_py_loader) "Error loading documents: " interrupt
          (fun docs =>
        if is_empty docs then
          Some (Reported (warning_line "Files found but no content loaded"))
        else
        needs (splitter_split_documents env default_splitter docs)
              "Error splitting documents: " interrupt
          (fun chunks =>
        if is_empty chunks then
          Some (Reported (error_line "No chunks created from documents"))
        else
        needs (new_OpenAIEmbeddings env) "Error creating vectorstore: " interrupt
          (fun emb =>
        needs (embed_documents env emb (map page_content chunks))
              "Error creating vectorstore: " interrupt
          (fun vectors =>
        needs (write_index env (mkVectorStore chunks vectors emb) "vectorstore")
              "Error creating vectorstore: " interrupt
          (fun _ => None))))))
    end.

(** The same for the start-up of main.py, where no clause catches a
    Ctrl-C. *)
Definition setup_failure (env : Env) (s : State) : option Failure :=
  let chain :=
    needs (new_ChatOpenAI env "gpt-3.5-turbo" 0) "Error creating RAG chain: " Uncaught
          (fun _ => None) in
  if key_unconfigured (getenv env "OPENAI_API_KEY") then
    Some (Reported (error_line "OpenAI API key not configured!"))
  else
    match fs s !! "vectorstore" with
    | Some node =>
        needs (new_OpenAIEmbeddings env) "Error loading vectorstore: " Uncaught
          (fun emb =>
        needs (read_index env (Some node) emb true) "Error loading vectorstore: " Uncaught
          (fun _ => chain))
    | None =>
        match fs s !! default_data_dir with
        | None => Some (Reported (error_line ("Directory not found: " +:+ default_data_dir)))
        | Some _ =>
            needs (loader_load env main_py_loader) "Error loading documents: " Uncaught
              (fun docs =>
            if is_empty docs then Some (Reported (error_line "No documents loaded"))
            else
            needs (splitter_split_documents env default_splitter docs)
                  "Error splitting documents: " Uncaught
              (fun chunks =>
            if is_empty chunks then Some (Reported (error_line "No chunks created"))
            else
            needs (new_OpenAIEmbeddings env) "Error creating vectorstore: " Uncaught
              (fun emb =>
            needs (embed_documents env emb (map page_content chunks))
                  "Error creating vectorstore: " Uncaught
              (fun vectors =>
            needs (write_index env (mkVectorStore chunks vectors emb) "vectorstore")
                  "Error creating vectorstore: " Uncaught
              (fun _ => chain)))))
        end
    end.

(** The third-party calls of load.py when nothing fails. *)
Definition ingestion_calls (docs chunks : list Document) (emb : Embeddings)
    (vectors : list Vector) : list Call :=
  [ CallRglob default_data_dir "*.docx";
    CallLoad load_py_loader;
    CallSplit default_splitter docs;
    CallNewEmbeddings;
    CallEmbed emb (map page_content chunks);
    CallBuildIndex chunks vectors;
    CallSaveLocal (mkVectorStore chunks vectors emb) "vectorstore" ].

(** * Proofs *)

Arguments str_of_nat : simpl never.
Arguments str_repeat : simpl nomatch.
Arguments list_repr : simpl never.
Arguments str_take : simpl never.
Arguments str_len : simpl never.
Arguments rstrip : simpl never.
Arguments format_ratio : simpl never.
Arguments format_kb : simpl never.
Arguments format_mb : simpl never.
Arguments strip : simpl never.
Arguments lower : simpl never.
Arguments str_in : simpl never.
Arguments String.eqb : simpl nomatch.
Arguments sum_nat : simpl never.
Arguments min_nat : simpl never.
Arguments max_nat : simpl never.
Arguments Load.file_list_text : simpl never.
Arguments Main.clear_command : simpl never.

(** Symbolic execution: evaluate until a test on an unknown answer blocks,
    reuse what is already known about it, or else split on it. *)
Ltac py_known :=
  match goal with
  | H : ?x = _ |- context [match ?x with _ => _ end] => rewrite H
  end.

Ltac py_case :=
  match goal with
  | |- context [match ?x with _ => _ end] =>
      lazymatch x with
      | context [match _ with _ => _ end] => fail
      | _ => destruct x eqn:?
      end
  end.

Ltac py_run :=
  repeat (simpl; try rewrite lookup_insert_eq; try first [py_known | py_case]).

(** Unfolding the scripts down to the monad. *)
Ltac unfold_py :=
  unfold RetrievalQA_call, FAISS_from_documents, FAISS_load_local, save_local, write_fs,
    Main.get_question_count, Main.set_question_count, input, call, path_exists, path_isdir,
    print_header, print_success, print_info, print_warning, print_error, print_color, print,
    sys_exit, try_except, try_except2, bind, emit, ret, raise, get_state.

Ltac unfold_load :=
  unfold Load.main, Load.validate_environment, Load.load_documents, Load.split_documents,
    Load.create_vectorstore; unfold_py.

Ltac unfold_setup :=
  unfold Main.setup, Main.obtain_vectorstore, Main.build_vectorstore,
    Main.validate_environment, Main.load_documents, Main.split_documents,
    Main.create_vectorstore, Main.load_vectorstore, Main.create_rag_chain; unfold_py.

Ltac unfold_turn :=
  unfold Main.loop_body, Main.turn, Main.answer, Main.on_interrupt, Main.on_exception;
  unfold_py.

(** Each event of an explicit trace satisfies the predicate at hand. *)
Ltac each_event := repeat constructor; simpl; try discriminate; auto.

(** Break the conjunctions and existentials among the hypotheses. *)
Ltac break_hyps :=
  repeat match goal with
         | H : _ /\ _ |- _ => destruct H
         | H : exists _, _ |- _ => destruct H
         | u : unit |- _ => destruct u
         end.

(** Bring what is known of a path into the other hypotheses. *)
Ltac use_lookups :=
  repeat match goal with
         | H : fs ?s !! ?p = ?v, H' : context [fs ?s !! ?p] |- _ =>
             lazymatch type of H' with
             | fs s !! p = v => fail
             | _ => rewrite H in H'
             end
         end.

(** Two answers of the same call are one answer. *)
Ltac same_answers :=
  repeat match goal with
         | H1 : ?x = _, H2 : ?x = _ |- _ => rewrite H1 in H2; inversion H2; subst; clear H2
         end.

(** An event is in an explicit trace. *)
Ltac find_event := simpl; solve [ repeat first [ left; reflexivity | right ] ].

Ltac unfold_ok :=
  unfold setup_ok, index_readable, index_buildable, main_py_loader, default_splitter.

(** ** The monad *)

Section MonadLaws.
Context {A B : Type}.

Lemma run_eta (r : Run A) : mkRun (outcome r) (after r) (trace r) = r.
Proof. destruct r; reflexivity. Qed.

Lemma bind_run (m : Py A) (k : A -> Py B) s :
  bind m k s =
    match outcome (m s) with
    | Ret a => prepend (trace (m s)) (k a (after (m s)))
    | Raise e => mkRun (Raise e) (after (m s)) (trace (m s))
    end.
Proof.
  unfold bind, prepend. destruct (m s) as [[a|e] s1 t1]; simpl; [|reflexivity].
  destruct (k a s1); reflexivity.
Qed.

Lemma Forall_trace_bind (P : Event -> Prop) (m : Py A) (k : A -> Py B) s :
  Forall P (trace (m s)) ->
  (forall a, outcome (m s) = Ret a -> Forall P (trace (k a (after (m s))))) ->
  Forall P (trace (bind m k s)).
Proof.
  intros Hm Hk. rewrite bind_run. destruct (outcome (m s)) as [a|e]; simpl; [|exact Hm].
  apply Forall_app; split; [exact Hm | apply Hk; reflexivity].
Qed.

End MonadLaws.

Lemma try_except_run {A} (body : Py A) handler s :
  try_except body handler s =
    match outcome (body s) with
    | Raise (Exception msg) => prepend (trace (body s)) (handler msg (after (body s)))
    | _ => body s
    end.
Proof.
  unfold try_except, prepend. destruct (body s) as [[a|[msg| |code]] s1 t1]; simpl; try reflexivity.
  destruct (handler msg s1); reflexivity.
Qed.

Lemma try_except2_run {A} (body : Py A) on_interrupt handler s :
  try_except2 body on_interrupt handler s =
    match outcome (body s) with
    | Raise KeyboardInterrupt => prepend (trace (body s)) (on_interrupt (after (body s)))
    | Raise (Exception msg) => prepend (trace (body s)) (handler msg (after (body s)))
    | _ => body s
    end.
Proof.
  unfold try_except2, prepend. destruct (body s) as [[a|[msg| |code]] s1 t1]; simpl; try reflexivity.
  - destruct (handler msg s1); reflexivity.
  - destruct (on_interrupt s1); reflexivity.
Qed.

Lemma Forall_trace_try_except {A} (P : Event -> Prop) (body : Py A) handler s :
  Forall P (trace (body s)) ->
  (forall msg, outcome (body s) = Raise (Exception msg) ->
               Forall P (trace (handler msg (after (body s))))) ->
  Forall P (trace (try_except body handler s)).
Proof.
  intros Hb Hh. rewrite try_except_run.
  destruct (outcome (body s)) as [a|[msg| |code]]; try exact Hb.
  simpl. apply Forall_app; split; [exact Hb | apply Hh; reflexivity].
Qed.

(** ** The interactive loop of main.py *)

Section Session.
Variable env : Env.

(** One pass through the loop never lets an exception out: it ends with
    [continue] or [break]. *)
Lemma loop_body_total qa_chain s :
  exists ctl, outcome (Main.loop_body env qa_chain s) = Ret ctl.
Proof. unfold_turn. py_run; eauto. Qed.

(** The loop goes on with the state a pass leaves whenever the pass says
    [continue]. *)
Lemma qa_loop_continue fuel qa_chain s :
  outcome (Main.loop_body env qa_chain s) = Ret Main.Continue ->
  Main.qa_loop env (S fuel) qa_chain s =
    prepend (trace (Main.loop_body env qa_chain s))
            (Main.qa_loop env fuel qa_chain (after (Main.loop_body env qa_chain s))).
Proof.
  intros H. cbn [Main.qa_loop]. rewrite bind_run, H. reflexivity.
Qed.

Lemma qa_loop_break fuel qa_chain s :
  outcome (Main.loop_body env qa_chain s) = Ret Main.Break ->
  Main.qa_loop env (S fuel) qa_chain s =
    mkRun (Ret Main.Finished) (after (Main.loop_body env qa_chain s))
          (trace (Main.loop_body env qa_chain s)).
Proof.
  intros H. cbn [Main.qa_loop]. rewrite bind_run, H. unfold prepend, ret. simpl.
  rewrite app_nil_r. reflexivity.
Qed.

(** So the loop itself never lets an exception out. *)
Lemma qa_loop_total fuel qa_chain s :
  exists ending, outcome (Main.qa_loop env fuel qa_chain s) = Ret ending.
Proof.
  revert s. induction fuel as [|fuel IH]; intros s; [eexists; reflexivity|].
  destruct (loop_body_total qa_chain s) as [[|] Hctl].
  - rewrite (qa_loop_continue _ _ _ Hctl). apply IH.
  - rewrite (qa_loop_break _ _ _ Hctl). eexists; reflexivity.
Qed.

(** Every pass starts by prompting. *)
Lemma loop_body_prompts qa_chain s :
  hd_error (trace (Main.loop_body env qa_chain s)) = Some the_prompt.
Proof. unfold_turn. py_run; reflexivity. Qed.

Lemma qa_loop_prompts fuel qa_chain s :
  hd_error (trace (Main.qa_loop env (S fuel) qa_chain s)) = Some the_prompt.
Proof.
  cbn [Main.qa_loop]. rewrite bind_run.
  pose proof (loop_body_prompts qa_chain s) as Hp.
  destruct (Main.loop_body env qa_chain s) as [[ctl|e] s1 t1]; simpl in *.
  - destruct t1; [discriminate|]. simpl in *. exact Hp.
  - exact Hp.
Qed.

(** What the body of the [try] does with an empty line. *)
Lemma turn_empty_line qa_chain s line rest :
  stdin s = Line line :: rest -> strip line = "" ->
  Main.turn env qa_chain s =
    mkRun (Ret Main.Continue) (mkState (fs s) rest (question_count s)) [the_prompt].
Proof.
  intros Hin Hempty. unfold Main.turn, input, bind, emit.
  rewrite Hin. simpl. rewrite Hempty. reflexivity.
Qed.

(** An Exception leaves the body of the [try] only before the counter is
    touched: from [input] at the end of the input, or from the chain. *)
Lemma turn_exception_state qa_chain s msg :
  outcome (Main.turn env qa_chain s) = Raise (Exception msg) ->
  question_count (after (Main.turn env qa_chain s)) = question_count s
  /\ fs (after (Main.turn env qa_chain s)) = fs s.
Proof. unfold_turn. py_run; intros H; try discriminate H; split; reflexivity. Qed.

(** C9: a pass whose line is empty once stripped does nothing but prompt:
    no third-party call (so the chain is not invoked), nothing printed,
    [question_count] and the files as before, the outcome is [continue],
    and the loop prompts again at once. *)
Theorem C9_empty_line_is_skipped qa_chain fuel s line rest :
  stdin s = Line line :: rest ->
  strip line = "" ->
  let next := mkState (fs s) rest (question_count s) in
  Main.loop_body env qa_chain s = mkRun (Ret Main.Continue) next [the_prompt]
  /\ calls_of (trace (Main.loop_body env qa_chain s)) = []
  /\ Main.qa_loop env (S fuel) qa_chain s =
       prepend [the_prompt] (Main.qa_loop env fuel qa_chain next)
  /\ hd_error (trace (Main.qa_loop env (S fuel) qa_chain next)) = Some the_prompt.
Proof.
  intros Hin Hempty next.
  assert (Hbody : Main.loop_body env qa_chain s
                  = mkRun (Ret Main.Continue) next [the_prompt]).
  { unfold Main.loop_body. rewrite try_except2_run.
    rewrite (turn_empty_line qa_chain s line rest Hin Hempty). reflexivity. }
  split; [exact Hbody|]. split; [rewrite Hbody; reflexivity|]. split.
  - rewrite qa_loop_continue; rewrite Hbody; reflexivity.
  - apply qa_loop_prompts.
Qed.

(** C8: when an Exception is raised while a question is processed, the
    pass reports it and ends with [continue]: [question_count] and the
    files are as before the question, and the loop goes on from there,
    prompting for the next question. *)
Theorem C8_exception_keeps_the_session qa_chain fuel s msg :
  outcome (Main.turn env qa_chain s) = Raise (Exception msg) ->
  let pass := Main.loop_body env qa_chain s in
  outcome pass = Ret Main.Continue
  /\ question_count (after pass) = question_count s
  /\ fs (after pass) = fs s
  /\ trace pass = (trace (Main.turn env qa_chain s) ++ question_error_report msg)%list
  /\ Main.qa_loop env (S fuel) qa_chain s =
       prepend (trace pass) (Main.qa_loop env fuel qa_chain (after pass))
  /\ hd_error (trace (Main.qa_loop env (S fuel) qa_chain (after pass))) = Some the_prompt.
Proof.
  intros Hraise pass.
  destruct (turn_exception_state qa_chain s msg Hraise) as [Hcount Hfs].
  assert (Hpass : pass = prepend (trace (Main.turn env qa_chain s))
                           (Main.on_exception msg (after (Main.turn env qa_chain s)))).
  { unfold pass, Main.loop_body. rewrite try_except2_run, Hraise. reflexivity. }
  assert (Hout : outcome pass = Ret Main.Continue) by (rewrite Hpass; reflexivity).
  repeat split.
  - exact Hout.
  - rewrite Hpass. exact Hcount.
  - rewrite Hpass. exact Hfs.
  - rewrite Hpass. reflexivity.
  - apply qa_loop_continue. exact Hout.
  - apply qa_loop_prompts.
Qed.

End Session.

(** ** Whole runs of main.py *)

Section WholeRun.
Variable env : Env.

(** The chain [create_rag_chain] returns: the "stuff" chain over the model
    the constructor answered with, a retriever on the given store asking
    for five chunks, source documents requested. *)
Lemma create_rag_chain_returns vs s qa_chain :
  outcome (Main.create_rag_chain env vs s) = Ret qa_chain ->
  new_ChatOpenAI env "gpt-3.5-turbo" 0 = Ok (llm qa_chain)
  /\ chain_type qa_chain = "stuff"
  /\ retriever qa_chain = mkRetriever vs 5
  /\ return_source_documents qa_chain = true.
Proof.
  unfold Main.create_rag_chain; unfold_py. py_run; intros H; inversion H; subst; auto.
Qed.

Lemma setup_returns s qa_chain :
  outcome (Main.setup env s) = Ret qa_chain ->
  search_kwargs_k (retriever qa_chain) = 5%nat.
Proof.
  unfold_setup. py_run; intros H; inversion H; subst; reflexivity.
Qed.

Lemma setup_never_says_not_found s :
  Forall (fun e => e <> not_found_message) (trace (Main.setup env s)).
Proof. unfold_setup. py_run; each_event. Qed.

Lemma setup_never_searches s :
  Forall search_k5 (trace (Main.setup env s)).
Proof. unfold_setup. py_run; each_event. Qed.

Lemma loop_body_never_says_not_found qa_chain s :
  Forall (fun e => e <> not_found_message) (trace (Main.loop_body env qa_chain s)).
Proof. unfold_turn. py_run; each_event. Qed.

Lemma loop_body_searches_k5 qa_chain s :
  search_kwargs_k (retriever qa_chain) = 5%nat ->
  Forall search_k5 (trace (Main.loop_body env qa_chain s)).
Proof. intros Hk. unfold_turn. py_run; each_event. Qed.

(** An invariant of every pass is an invariant of the loop. *)
Lemma qa_loop_invariant (P : Event -> Prop) qa_chain :
  (forall s, Forall P (trace (Main.loop_body env qa_chain s))) ->
  forall fuel s, Forall P (trace (Main.qa_loop env fuel qa_chain s)).
Proof.
  intros Hbody fuel. induction fuel as [|fuel IH]; intros s.
  - constructor.
  - cbn [Main.qa_loop]. apply Forall_trace_bind; [apply Hbody|].
    intros [|] _; [apply IH | constructor].
Qed.

(** An invariant of the start-up and of every pass of the loop is an
    invariant of the run, provided the banners and the fatal-error report
    satisfy it. *)
Lemma main_invariant (P : Event -> Prop) fuel s :
  (forall text, P (Stdout text)) ->
  (forall level text, P (Logged level text)) ->
  (forall text, P (LoggedException text)) ->
  (forall style text, P (StdoutColor style CYAN text)) ->
  (forall msg, P (StdoutColor BRIGHT RED ("❌ " +:+ "Erro fatal: " +:+ msg))) ->
  Forall P (trace (Main.setup env s)) ->
  (forall qa_chain, outcome (Main.setup env s) = Ret qa_chain ->
     forall s', Forall P (trace (Main.loop_body env qa_chain s'))) ->
  Forall P (trace (Main.main env fuel s)).
Proof.
  intros Hout Hlog Hexc Hcyan Hfatal Hsetup Hloop. unfold Main.main.
  apply Forall_trace_bind; [unfold_py; each_event|]. intros _ _.
  apply Forall_trace_bind; [unfold_py; each_event|]. intros _ _.
  apply Forall_trace_bind; [unfold_py; each_event|]. intros _ _.
  apply Forall_trace_try_except.
  - apply Forall_trace_bind; [apply Hsetup|]. intros qa_chain Hchain.
    apply Forall_trace_bind; [unfold Main.start_session; unfold_py; each_event|].
    intros _ _. apply qa_loop_invariant. apply (Hloop _ Hchain).
  - intros msg _. unfold_py. each_event.
Qed.

Lemma main_searches_k5 fuel s :
  Forall search_k5 (trace (Main.main env fuel s)).
Proof.
  apply main_invariant; simpl; auto.
  - apply setup_never_searches.
  - intros qa_chain Hchain s'. apply loop_body_searches_k5.
    apply (setup_returns _ _ Hchain).
Qed.

(** What a pass calls when its line is a question. *)
Lemma loop_body_question_calls qa_chain s line rest :
  stdin s = Line line :: rest ->
  is_question (strip line) = true ->
  calls_of (trace (Main.loop_body env qa_chain s)) =
    CallSearch (vectorstore (retriever qa_chain)) (strip line)
               (search_kwargs_k (retriever qa_chain))
    :: match similarity_search env (vectorstore (retriever qa_chain)) (strip line)
                               (search_kwargs_k (retriever qa_chain)) with
       | Ok docs => [CallChat (llm qa_chain) docs (strip line)]
       | _ => []
       end.
Proof.
  intros Hin Hq. unfold is_question in Hq.
  apply andb_prop in Hq as [Hq Hclear]. apply andb_prop in Hq as [Hempty Hexit].
  apply negb_true_iff in Hempty, Hexit, Hclear.
  unfold exit_words in Hexit. unfold clear_words in Hclear.
  unfold_turn. rewrite Hin. py_run; reflexivity.
Qed.

(** C1: every question entered at the prompt makes the chain built by
    [create_rag_chain] search the vector store for the 5 nearest chunks of
    that question and, once the search answers, send exactly those chunks
    with the question to the chat model; these are the only third-party
    calls of the pass, and throughout a run of main.py every retrieval
    asks for k = 5. *)
Theorem C1_question_retrieves_top5_and_forwards vs s0 qa_chain s line rest :
  outcome (Main.create_rag_chain env vs s0) = Ret qa_chain ->
  stdin s = Line line :: rest ->
  is_question (strip line) = true ->
  calls_of (trace (Main.loop_body env qa_chain s)) =
    CallSearch vs (strip line) 5
    :: match similarity_search env vs (strip line) 5 with
       | Ok docs => [CallChat (llm qa_chain) docs (strip line)]
       | _ => []
       end
  /\ new_ChatOpenAI env "gpt-3.5-turbo" 0 = Ok (llm qa_chain)
  /\ (forall fuel s1, Forall search_k5 (trace (Main.main env fuel s1))).
Proof.
  intros Hchain Hin Hq.
  destruct (create_rag_chain_returns _ _ _ Hchain) as (Hllm & _ & Hretr & _).
  split; [|split; [exact Hllm | intros; apply main_searches_k5]].
  rewrite (loop_body_question_calls _ _ _ _ Hin Hq), Hretr. reflexivity.
Qed.

Lemma setup_loads_only_what_exists s :
  fs s !! "vectorstore" = None ->
  Forall (fun e => e <> loading_message) (trace (Main.setup env s)).
Proof. intros Hnone. unfold_setup. py_run; each_event. Qed.

Lemma loop_body_never_loads qa_chain s :
  Forall (fun e => e <> loading_message) (trace (Main.loop_body env qa_chain s)).
Proof. unfold_turn. py_run; each_event. Qed.

(** C10: in a run of main.py, [load_vectorstore] starts only when the path
    "vectorstore" exists, and its "Vectorstore not found!" report is never
    written: that branch is unreachable from [main]. *)
Theorem C10_not_found_branch_is_unreachable fuel s :
  ~ In not_found_message (trace (Main.main env fuel s))
  /\ (In loading_message (trace (Main.main env fuel s)) ->
      is_Some (fs s !! "vectorstore")).
Proof.
  split.
  - intros Hin.
    assert (Hall : Forall (fun e => e <> not_found_message) (trace (Main.main env fuel s))).
    { apply main_invariant; try (intros; discriminate).
      - apply setup_never_says_not_found.
      - intros qa_chain _ s'. apply loop_body_never_says_not_found. }
    rewrite List.Forall_forall in Hall. exact (Hall _ Hin eq_refl).
  - intros Hin. destruct (fs s !! "vectorstore") eqn:Hfs; [eauto|]. exfalso.
    assert (Hall : Forall (fun e => e <> loading_message) (trace (Main.main env fuel s))).
    { apply main_invariant; try (intros; discriminate).
      - apply setup_loads_only_what_exists. exact Hfs.
      - intros qa_chain _ s'. apply loop_body_never_loads. }
    rewrite List.Forall_forall in Hall. exact (Hall _ Hin eq_refl).
Qed.

End WholeRun.

(** ** Runs of load.py *)

Section Ingestion.
Variable env : Env.

(** load.py ends normally when nothing fails, and otherwise with exit code
    1. *)
Lemma load_main_outcome s :
  (load_ok env s /\ outcome (Load.main env s) = Ret tt)
  \/ (~ load_ok env s /\ outcome (Load.main env s) = Raise (SystemExit 1)).
Proof.
  unfold load_ok, load_py_loader, default_splitter.
  unfold_load. py_run.
  all: try (right; split;
            [ intros (? & ? & ? & ? & ? & ? & ? & ? & ? & ? & ? & ? & ? & ? & ? & ?); congruence
            | reflexivity ]).
  all: try match goal with H : true && true = false |- _ => discriminate H end.
  left. split; [|reflexivity].
  split; [reflexivity|]. split; [congruence|].
  match goal with u : unit |- _ => destruct u end. eauto 20.
Qed.

(** When every service answers, load.py makes its seven calls and saves
    what it built. *)
Lemma load_main_performs s files docs chunks emb vectors :
  key_unconfigured (getenv env "OPENAI_API_KEY") = false ->
  fs s !! default_data_dir <> None ->
  rglob env default_data_dir "*.docx" = Ok files ->
  (length files =? 0)%nat = false ->
  loader_load env load_py_loader = Ok docs ->
  is_empty docs = false ->
  splitter_split_documents env default_splitter docs = Ok chunks ->
  is_empty chunks = false ->
  new_OpenAIEmbeddings env = Ok emb ->
  embed_documents env emb (map page_content chunks) = Ok vectors ->
  write_index env (mkVectorStore chunks vectors emb) "vectorstore" = Ok tt ->
  calls_of (trace (Load.main env s)) = ingestion_calls docs chunks emb vectors
  /\ fs (after (Load.main env s))
     = <["vectorstore" := IndexFolder (mkVectorStore chunks vectors emb)]> (fs s).
Proof.
  unfold load_py_loader, default_splitter, ingestion_calls.
  intros Hkey Hdir Hscan Hfiles Hload Hdocs Hsplit Hchunks Hemb Hvec Hwrite.
  unfold_load. rewrite Hkey. py_run; try congruence.
  all: try match goal with H : true && true = false |- _ => discriminate H end.
  split; reflexivity.
Qed.

(** The steps a run of load.py takes are the first steps of the list, and
    all of them exactly when it ends normally; success is reported only
    over a saved index. *)
Lemma load_main_steps s :
  let r := Load.main env s in
  steps_of (trace r) `prefix_of` ingestion_steps
  /\ (outcome r = Ret tt <-> steps_of (trace r) = ingestion_steps)
  /\ (In ReportSuccess (steps_of (trace r)) ->
      exists vs, fs (after r) = <["vectorstore" := IndexFolder vs]> (fs s)
                 /\ In (CallSaveLocal vs "vectorstore") (calls_of (trace r))).
Proof.
  unfold_load. py_run.
  all: unfold ingestion_steps.
  all: try (split; [eexists; reflexivity
                   | split; [split; discriminate | simpl; intuition discriminate]]).
  split; [exists []; reflexivity | split; [tauto|]].
  intros _. eexists. split; [reflexivity|]. simpl. auto 10.
Qed.

(** C3: load.py performs its steps in this order and no other: the scan
    of the directory for .docx files, the parse, the chunking, the batch
    embedding call, the index build, the write of the index to the folder
    "vectorstore", and only then the report of success.  Whenever the key
    is configured, the directory exists, the scan finds a file and every
    service answers, with documents and chunks, the run ends normally, has
    gone through all seven steps, has made exactly the seven calls of the
    ingestion with these arguments, and leaves the folder holding the
    index built from the chunks.  Any other run stops somewhere along the
    list, with exit code 1, and success is never reported before the
    index is saved. *)
Theorem C3_ingestion_steps_in_order s :
  let r := Load.main env s in
  steps_of (trace r) `prefix_of` ingestion_steps
  /\ (outcome r = Ret tt <-> steps_of (trace r) = ingestion_steps)
  /\ (In ReportSuccess (steps_of (trace r)) ->
      exists vs, fs (after r) = <["vectorstore" := IndexFolder vs]> (fs s)
                 /\ In (CallSaveLocal vs "vectorstore") (calls_of (trace r)))
  /\ (load_ok env s <-> outcome r = Ret tt)
  /\ (~ load_ok env s -> outcome r = Raise (SystemExit 1))
  /\ (forall files docs chunks emb vectors,
        key_unconfigured (getenv env "OPENAI_API_KEY") = false ->
        fs s !! default_data_dir <> None ->
        rglob env default_data_dir "*.docx" = Ok files ->
        (length files =? 0)%nat = false ->
        loader_load env load_py_loader = Ok docs ->
        is_empty docs = false ->
        splitter_split_documents env default_splitter docs = Ok chunks ->
        is_empty chunks = false ->
        new_OpenAIEmbeddings env = Ok emb ->
        embed_documents env emb (map page_content chunks) = Ok vectors ->
        write_index env (mkVectorStore chunks vectors emb) "vectorstore" = Ok tt ->
        calls_of (trace r) = ingestion_calls docs chunks emb vectors
        /\ fs (after r)
           = <["vectorstore" := IndexFolder (mkVectorStore chunks vectors emb)]> (fs s)).
Proof.
  intros r. destruct (load_main_steps s) as (Hprefix & Hiff & Hsaved).
  split; [exact Hprefix|]. split; [exact Hiff|]. split; [exact Hsaved|].
  split; [|split].
  - destruct (load_main_outcome s) as [[Hok Hret] | (Hno & Hexit)].
    + split; intros _; assumption.
    + split; [intros Hok; contradiction|].
      unfold r. rewrite Hexit. discriminate.
  - intros Hno. destruct (load_main_outcome s) as [[Hok _] | (_ & Hexit)];
      [contradiction | exact Hexit].
  - intros files docs chunks emb vectors. apply load_main_performs.
Qed.

End Ingestion.

(** ** The start-up of main.py *)

Section Startup.
Variable env : Env.

(** The start-up returns a chain exactly when nothing fails, and the chain
    is then the one over the store that was read or built. *)
Lemma setup_returns_iff s qa_chain :
  outcome (Main.setup env s) = Ret qa_chain <-> setup_ok env s qa_chain.
Proof.
  unfold_ok. unfold_setup. py_run.
  all: use_lookups.
  all: try (split; [discriminate | intros; break_hyps; congruence]).
  - split.
    + intros H; inversion H; subst; simpl.
      split; [reflexivity|]. split; [|split; reflexivity].
      eexists. split; first [reflexivity | eassumption].
    + intros (_ & (emb & He & Hr) & Hl & Hq). rewrite Hq. congruence.
  - split.
    + intros H; inversion H; subst; simpl. break_hyps.
      split; [reflexivity|]. split; [|split; reflexivity].
      split; [congruence|]. do 4 eexists.
      repeat split; first [reflexivity | eassumption].
    + intros (_ & (_ & docs & chunks & emb & vectors & H1 & H2 & H3 & H4 & H5 & H6 & H7 & H8)
              & Hl & Hq).
      rewrite Hq, H7. congruence.
Qed.

(** Which branch of the start-up runs, and what it leaves on disk. *)
Lemma setup_branches s :
  key_unconfigured (getenv env "OPENAI_API_KEY") = false ->
  match fs s !! "vectorstore" with
  | Some _ =>
      In loading_message (trace (Main.setup env s))
      /\ ~ In building_message (trace (Main.setup env s))
      /\ filter is_build_call (calls_of (trace (Main.setup env s))) = []
      /\ fs (after (Main.setup env s)) = fs s
  | None =>
      In building_message (trace (Main.setup env s))
      /\ ~ In loading_message (trace (Main.setup env s))
      /\ filter is_load_call (calls_of (trace (Main.setup env s))) = []
      /\ forall qa_chain,
           outcome (Main.setup env s) = Ret qa_chain ->
           fs (after (Main.setup env s))
           = <["vectorstore" := IndexFolder (vectorstore (retriever qa_chain))]> (fs s)
  end.
Proof.
  intros Hkey. unfold_setup. rewrite Hkey. py_run.
  all: repeat split; try reflexivity; try discriminate.
  all: try (simpl; intuition discriminate).
  all: try (simpl; auto 10; fail).
  all: try (intros ? H; inversion H; subst; reflexivity).
Qed.

(** C2: when main.py starts with a configured key, exactly one of two
    branches runs.  If the path "vectorstore" exists, [load_vectorstore]
    runs, nothing is built and the files stay as they are; otherwise the
    ingestion runs (load the documents, split them, create and save the
    store), nothing is loaded, and the folder ends up holding the store.
    Either way the start-up returns a chain exactly when nothing fails,
    and the retriever of that chain is on the store that was read from the
    folder, respectively built from the chunks. *)
Theorem C2_index_loaded_or_built s :
  key_unconfigured (getenv env "OPENAI_API_KEY") = false ->
  let r := Main.setup env s in
  (forall qa_chain, outcome r = Ret qa_chain <-> setup_ok env s qa_chain)
  /\ match fs s !! "vectorstore" with
     | Some _ =>
         In loading_message (trace r)
         /\ ~ In building_message (trace r)
         /\ filter is_build_call (calls_of (trace r)) = []
         /\ fs (after r) = fs s
     | None =>
         In building_message (trace r)
         /\ ~ In loading_message (trace r)
         /\ filter is_load_call (calls_of (trace r)) = []
         /\ forall qa_chain,
              outcome r = Ret qa_chain ->
              fs (after r)
              = <["vectorstore" := IndexFolder (vectorstore (retriever qa_chain))]> (fs s)
     end.
Proof.
  intros Hkey r. split.
  - intros qa_chain. apply setup_returns_iff.
  - apply setup_branches. exact Hkey.
Qed.

End Startup.

(** ** Splitting *)

Section Splitting.
Variable env : Env.

(** C5, as the code has it: with their defaults both [split_documents]
    hand the documents to a splitter configured with chunk_size = 1000,
    chunk_overlap = 200 and length_function = len, make no other
    third-party call, and return exactly the chunks that splitter answers
    with; no chunks, or an Exception of the splitter, end the run with
    exit code 1.  How long the chunks are is the splitter's business. *)
Theorem C5_split_documents_delegates documents s :
  is_empty documents = false ->
  let splitter := mkSplitter 1000 200 len in
  let load := Load.split_documents env documents default_chunk_size default_chunk_overlap s in
  let main := Main.split_documents env documents default_chunk_size default_chunk_overlap s in
  calls_of (trace load) = [CallSplit splitter documents]
  /\ calls_of (trace main) = [CallSplit splitter documents]
  /\ match splitter_split_documents env splitter documents with
     | Ok chunks =>
         if is_empty chunks
         then outcome load = Raise (SystemExit 1) /\ outcome main = Raise (SystemExit 1)
         else outcome load = Ret chunks /\ outcome main = Ret chunks
     | Fails _ => outcome load = Raise (SystemExit 1) /\ outcome main = Raise (SystemExit 1)
     | Interrupted =>
         outcome load = Raise KeyboardInterrupt /\ outcome main = Raise KeyboardInterrupt
     end.
Proof.
  intros Hdocs. unfold Load.split_documents, Main.split_documents; unfold_py.
  change default_chunk_size with 1000%nat. change default_chunk_overlap with 200%nat.
  py_run; repeat split; reflexivity.
Qed.

End Splitting.

(** ** load.py against the build of main.py *)

Section TwoEntryPoints.
Variable env : Env.

(** C7, as the code has it: the ingestion of load.py and the on-demand
    build of main.py use the same default directory, the same glob and
    loader class, the same splitter (1000, 200, len), the same embeddings
    and the same folder "vectorstore"; they differ in that load.py scans
    the directory first and loads with [use_multithreading].  So whenever
    the loader answers the same with and without threads and the scan
    finds a file, starting without an index both leave the same files,
    hence the same saved index, and make the same ingestion calls up to
    the threading switch. *)
Theorem C7_same_index_when_loader_agrees s files :
  loader_load env load_py_loader = loader_load env main_py_loader ->
  rglob env default_data_dir "*.docx" = Ok files ->
  (length files =? 0)%nat = false ->
  fs s !! "vectorstore" = None ->
  let load := Load.main env s in
  let main := Main.setup env s in
  fs (after load) = fs (after main)
  /\ map single_threaded (filter is_ingestion_call (calls_of (trace load)))
     = filter is_ingestion_call (calls_of (trace main)).
Proof.
  unfold load_py_loader, main_py_loader. intros Hflag Hscan Hfiles Hnone.
  unfold_load. unfold_setup. rewrite Hflag.
  py_run; split; reflexivity.
Qed.

End TwoEntryPoints.

(** ** How failures end a run *)

Section Failures.
Variable env : Env.

(** What the start-up decides about the whole run of main.py: a chain
    leads into the session, which ends without an exception; an exit or a
    Ctrl-C of the start-up is the end of the run. *)
Lemma main_outcome fuel s :
  match outcome (Main.setup env s) with
  | Ret _ => exists ending, outcome (Main.main env fuel s) = Ret ending
  | Raise (Exception _) => outcome (Main.main env fuel s) = Raise (SystemExit 1)
  | Raise e => outcome (Main.main env fuel s) = Raise e
  end.
Proof.
  unfold Main.main, Main.start_session.
  unfold print_header, print_color, print, print_error, Main.set_question_count, sys_exit,
    try_except, bind, emit, ret, raise.
  destruct (Main.setup env s) as [[qa_chain|[msg| |code]] s1 t1]; simpl; try reflexivity.
  match goal with
  | |- context [Main.qa_loop env fuel qa_chain ?st] =>
      destruct (qa_loop_total env fuel qa_chain st) as [ending Hend];
      destruct (Main.qa_loop env fuel qa_chain st) as [o s2 t2]
  end.
  simpl in *. subst o. eauto.
Qed.

Lemma load_vectorstore_missing s :
  fs s !! "vectorstore" = None ->
  outcome (Main.load_vectorstore env s) = Raise (SystemExit 1)
  /\ In not_found_message (trace (Main.load_vectorstore env s)).
Proof.
  intros Hnone. unfold Main.load_vectorstore; unfold_py. py_run.
  split; [reflexivity | simpl; auto].
Qed.

(** A run of main.py, read off its start-up. *)
Lemma main_run fuel s :
  Main.main env fuel s =
    prepend main_banner
      match outcome (Main.setup env s) with
      | Ret qa_chain =>
          prepend (trace (Main.setup env s))
                  (bind Main.start_session (fun _ => Main.qa_loop env fuel qa_chain)
                        (after (Main.setup env s)))
      | Raise (Exception msg) =>
          prepend (trace (Main.setup env s))
                  ((print "" ;;; print_error ("Erro fatal: " +:+ msg) ;;;
                    emit (LoggedException "Fatal error:") ;;; sys_exit 1)
                     (after (Main.setup env s)))
      | Raise e => mkRun (Raise e) (after (Main.setup env s)) (trace (Main.setup env s))
      end.
Proof.
  unfold Main.main, Main.start_session, main_banner, prepend.
  unfold print_header, print_color, print, print_error, Main.set_question_count, sys_exit,
    try_except, bind, emit, ret, raise.
  destruct (Main.setup env s) as [[qa_chain|[msg| |code]] s1 t1]; simpl; try reflexivity.
  match goal with
    | |- context [Main.qa_loop env fuel qa_chain ?st] =>
        destruct (qa_loop_total env fuel qa_chain st) as [ending Hend];
        destruct (Main.qa_loop env fuel qa_chain st) as [o s2 t2]
  end.
  simpl in *. subst o. reflexivity.
Qed.

(** When the start-up exits, so does the run, after the banner and what
    the start-up wrote. *)
Lemma main_when_setup_exits fuel s code :
  outcome (Main.setup env s) = Raise (SystemExit code) ->
  Main.main env fuel s
  = mkRun (Raise (SystemExit code)) (after (Main.setup env s))
          (main_banner ++ trace (Main.setup env s)).
Proof. intros H. rewrite main_run, H. reflexivity. Qed.

Lemma calls_of_main_banner t : calls_of (main_banner ++ t) = calls_of t.
Proof. reflexivity. Qed.

(** load.py ends as its first failure says: normally when there is none,
    and otherwise with exit code 1 after the report that failure owes. *)
Lemma load_failure_run s :
  match load_failure env s with
  | None => outcome (Load.main env s) = Ret tt
  | Some (Reported report) =>
      outcome (Load.main env s) = Raise (SystemExit 1)
      /\ In report (trace (Load.main env s))
  | Some Uncaught => False
  end.
Proof.
  unfold load_failure, needs, load_py_loader, default_splitter, error_line, warning_line.
  unfold_load. py_run.
  all: try match goal with H : true && true = false |- _ => discriminate H end.
  all: first [ reflexivity | split; [reflexivity | find_event] ].
Qed.

(** So does the start-up of main.py, except that nothing catches a Ctrl-C. *)
Lemma setup_failure_run s :
  match setup_failure env s with
  | None => exists qa_chain, outcome (Main.setup env s) = Ret qa_chain
  | Some (Reported report) =>
      outcome (Main.setup env s) = Raise (SystemExit 1)
      /\ In report (trace (Main.setup env s))
  | Some Uncaught => outcome (Main.setup env s) = Raise KeyboardInterrupt
  end.
Proof.
  unfold setup_failure, needs, main_py_loader, default_splitter, error_line.
  unfold_setup. destruct (fs s !! "vectorstore") as [node|] eqn:Hnode; py_run.
  all: use_lookups; try congruence; same_answers.
  all: first [ reflexivity | eexists; reflexivity | split; [reflexivity | find_event] ].
Qed.

(** An Exception out of the body of the loop's [try] is reported, and the
    pass ends with [continue]. *)
Lemma loop_body_reports qa_chain s msg :
  outcome (Main.turn env qa_chain s) = Raise (Exception msg) ->
  outcome (Main.loop_body env qa_chain s) = Ret Main.Continue
  /\ trace (Main.loop_body env qa_chain s)
     = (trace (Main.turn env qa_chain s) ++ question_error_report msg)%list.
Proof.
  intros Hraise. unfold Main.loop_body. rewrite try_except2_run, Hraise.
  split; reflexivity.
Qed.

(** C6, as the code has it: the first failure before the session (a
    missing or placeholder key, a missing directory, no .docx file, no
    documents or chunks, an error of the loader, the splitter, the
    embedding or the store, a saved store that cannot be read) ends the
    run with exit code 1 after the error report of that very failure:
    load.py ends normally exactly when nothing fails, and main.py enters
    its session exactly when nothing fails; [load_vectorstore] on a missing
    folder reports "Vectorstore not found!" and exits with 1.  A Ctrl-C is
    reported and exits with 1 in load.py and is left uncaught by the
    start-up of main.py.  Inside the session a failure is recovered from:
    an Exception while a question is processed is reported and the pass
    ends with [continue]; every pass ends with [continue] or [break],
    never with an exit code. *)
Theorem C6_failures_before_the_session_exit_1 fuel s :
  match load_failure env s with
  | None => load_ok env s /\ outcome (Load.main env s) = Ret tt
  | Some (Reported report) =>
      ~ load_ok env s
      /\ outcome (Load.main env s) = Raise (SystemExit 1)
      /\ In report (trace (Load.main env s))
  | Some Uncaught => False
  end
  /\ match setup_failure env s with
     | None =>
         exists qa_chain ending,
           setup_ok env s qa_chain /\ outcome (Main.main env fuel s) = Ret ending
     | Some (Reported report) =>
         (forall qa_chain, ~ setup_ok env s qa_chain)
         /\ outcome (Main.main env fuel s) = Raise (SystemExit 1)
         /\ In report (trace (Main.main env fuel s))
     | Some Uncaught =>
         (forall qa_chain, ~ setup_ok env s qa_chain)
         /\ outcome (Main.main env fuel s) = Raise KeyboardInterrupt
     end
  /\ (fs s !! "vectorstore" = None ->
      outcome (Main.load_vectorstore env s) = Raise (SystemExit 1)
      /\ In not_found_message (trace (Main.load_vectorstore env s)))
  /\ (forall qa_chain s',
        (exists ctl, outcome (Main.loop_body env qa_chain s') = Ret ctl)
        /\ forall msg,
             outcome (Main.turn env qa_chain s') = Raise (Exception msg) ->
             outcome (Main.loop_body env qa_chain s') = Ret Main.Continue
             /\ trace (Main.loop_body env qa_chain s')
                = (trace (Main.turn env qa_chain s') ++ question_error_report msg)%list).
Proof.
  split; [|split; [|split]].
  - pose proof (load_failure_run s) as Hrun.
    destruct (load_failure env s) as [[report|]|]; [| exact Hrun |].
    + destruct Hrun as [Hexit Hin].
      split; [|split; assumption].
      intros Hok.
      destruct (load_main_outcome env s) as [[_ Hret] | (Hno & _)]; [congruence | auto].
    + split; [|exact Hrun].
      destruct (load_main_outcome env s) as [[Hok _] | (_ & Hexit)];
        [exact Hok | congruence].
  - pose proof (setup_failure_run s) as Hrun. pose proof (main_run fuel s) as Hmain.
    destruct (setup_failure env s) as [[report|]|].
    + destruct Hrun as [Hexit Hin]. split; [|split].
      * intros qa_chain Hok. apply setup_returns_iff in Hok. congruence.
      * rewrite (main_when_setup_exits fuel s 1 Hexit). reflexivity.
      * rewrite (main_when_setup_exits fuel s 1 Hexit). cbn [trace].
        apply in_or_app. right. exact Hin.
    + split.
      * intros qa_chain Hok. apply setup_returns_iff in Hok. congruence.
      * rewrite Hmain, Hrun. reflexivity.
    + destruct Hrun as [qa_chain Hret].
      pose proof (main_outcome fuel s) as Hout. rewrite Hret in Hout.
      destruct Hout as [ending Hend]. exists qa_chain, ending.
      split; [apply setup_returns_iff; exact Hret | exact Hend].
  - apply load_vectorstore_missing.
  - intros qa_chain s'. split; [apply loop_body_total|].
    intros msg. apply loop_body_reports.
Qed.

End Failures.

(** ** What an answered question shows *)

Section Answers.
Variable env : Env.

(** When a question is answered, the pass prints the answer text between
    two rules and, if the chain returned a non-empty list of source
    documents, one line with their number ("Baseado em N documentos
    relevantes"); [question_count] goes up by one.  The documents reach
    only [logger.debug], whose records the INFO level drops. *)
Lemma answered_question_console qa_chain s line rest docs text :
  stdin s = Line line :: rest ->
  is_question (strip line) = true ->
  similarity_search env (vectorstore (retriever qa_chain)) (strip line)
                    (search_kwargs_k (retriever qa_chain)) = Ok docs ->
  chat_completion env (llm qa_chain) docs (strip line) = Ok text ->
  let pass := Main.loop_body env qa_chain s in
  let sources := if return_source_documents qa_chain then Some docs else None in
  outcome pass = Ret Main.Continue
  /\ question_count (after pass) = S (question_count s)
  /\ console (trace pass) = "💬 Pergunta: " :: answer_console text sources
  /\ debug_records (trace pass)
     = ("Query: " +:+ strip line)
       :: match sources with
          | None | Some [] => []
          | Some shown => ["Sources: " +:+ list_repr id (map Main.metadata_repr shown)]
          end.
Proof.
  intros Hin Hq Hsearch Hchat. unfold is_question in Hq.
  apply andb_prop in Hq as [Hq Hclear]. apply andb_prop in Hq as [Hempty Hexit].
  apply negb_true_iff in Hempty, Hexit, Hclear.
  unfold exit_words in Hexit. unfold clear_words in Hclear.
  unfold answer_console. unfold_turn. rewrite Hin.
  py_run.
  all: try match goal with H : negb (is_empty []) = true |- _ => discriminate H end.
  all: try match goal with H : negb (is_empty (_ :: _)) = false |- _ => discriminate H end.
  all: repeat split; try reflexivity; apply Nat.add_1_r.
Qed.

End Answers.

(** * Concrete runs *)

(** C4 at a question answered from one source document, [Sample.lei]: the
    chain hands the document over, the console gets the answer and the
    line "Baseado em 1 documentos relevantes", and the document itself,
    which the comment of line 263 announces ("Show source documents"),
    goes to [logger.debug] only, which the INFO level drops: no line of
    the console shows its text or its source. *)
Theorem C4_sources_are_not_shown :
  let pass := Main.loop_body Sample.env Sample.chain Runs.asking in
  outcome pass = Ret Main.Continue
  /\ calls_of (trace pass)
     = [ CallSearch Sample.index Runs.question 5;
         CallChat (llm Sample.chain) [Sample.lei] Runs.question ]
  /\ console (trace pass)
     = [ "💬 Pergunta: "; "";
         "ℹ️  Processando sua pergunta..."; "Processando sua pergunta...";
         ""; "📝 Resposta:"; str_repeat "-" 70; "Sim, toda pessoa."; str_repeat "-" 70;
         ""; "ℹ️  Baseado em 1 documentos relevantes";
         "Baseado em 1 documentos relevantes"; "" ]
  /\ debug_records (trace pass)
     = [ "Query: O que diz o artigo 1?"; "Sources: [{'source': 'codigo_civil.docx'}]" ]
  /\ shows_document (console (trace pass)) Sample.lei = false.
Proof. vm_compute. repeat split; reflexivity. Qed.

(** C5 as stated fails: a document of 64 characters comes back from both
    [split_documents] as one chunk of 64 characters, not of 1000. *)
Lemma C5_chunk_shorter_than_1000 :
  outcome (Load.split_documents Sample.env [Sample.lei] default_chunk_size
                                default_chunk_overlap Runs.fresh) = Ret [Sample.lei]
  /\ outcome (Main.split_documents Sample.env [Sample.lei] default_chunk_size
                                   default_chunk_overlap Runs.fresh) = Ret [Sample.lei]
  /\ str_len (page_content Sample.lei) = 64%nat
  /\ fixed_size 1000 [Sample.lei] = false.
Proof. vm_compute. repeat split; reflexivity. Qed.

(** C6 as stated fails: the chat model fails on the first question of the
    session, and the run goes on to the next line and ends normally, with
    no exit code 1. *)
Lemma C6_failed_question_does_not_exit :
  chat_completion Sample.env (llm Sample.chain) [Sample.lei] "falha"
  = Fails "Request timed out."
  /\ calls_of (trace (Main.main Sample.env 2 Runs.failing))
     = [ CallNewEmbeddings; CallLoadLocal "vectorstore" true;
         CallNewChatOpenAI "gpt-3.5-turbo" 0;
         CallSearch Sample.index "falha" 5;
         CallChat (llm Sample.chain) [Sample.lei] "falha" ]
  /\ outcome (Main.main Sample.env 2 Runs.failing) = Ret Main.Finished
  /\ question_count (after (Main.main Sample.env 2 Runs.failing)) = 0%nat.
Proof. vm_compute. repeat split; reflexivity. Qed.

(** C7 as stated fails: over the same corpus, with a loader that returns
    the documents in another order when it runs threaded, load.py and the
    build of main.py save different indexes. *)
Lemma C7_threaded_loader_saves_another_index :
  fs (after (Load.main Sample.threaded Runs.fresh)) !! "vectorstore"
  = Some (IndexFolder (mkVectorStore [Sample.cdc; Sample.lei]
                                     [[1%Z; 0%Z]; [1%Z; 0%Z]] Sample.ada))
  /\ fs (after (Main.setup Sample.threaded Runs.fresh)) !! "vectorstore"
     = Some (IndexFolder (mkVectorStore [Sample.lei; Sample.cdc]
                                        [[1%Z; 0%Z]; [1%Z; 0%Z]] Sample.ada))
  /\ outcome (Load.main Sample.threaded Runs.fresh) = Ret tt.
Proof. vm_compute. repeat split; reflexivity. Qed.

(** C1 at a question typed between a no-break space and an em space. *)
Lemma C1_witness :
  outcome (Main.create_rag_chain Sample.env Sample.index Runs.fresh) = Ret Sample.chain
  /\ stdin Runs.asking = [Line Runs.typed; Line "sair"]
  /\ is_question (strip Runs.typed) = true
  /\ strip Runs.typed = Runs.question
  /\ calls_of (trace (Main.loop_body Sample.env Sample.chain Runs.asking))
     = [ CallSearch Sample.index Runs.question 5;
         CallChat (llm Sample.chain) [Sample.lei] Runs.question ].
Proof.
  assert (H1 : outcome (Main.create_rag_chain Sample.env Sample.index Runs.fresh)
               = Ret Sample.chain) by (vm_compute; reflexivity).
  assert (H2 : stdin Runs.asking = [Line Runs.typed; Line "sair"]) by reflexivity.
  assert (H3 : is_question (strip Runs.typed) = true) by (vm_compute; reflexivity).
  assert (H4 : strip Runs.typed = Runs.question) by (vm_compute; reflexivity).
  repeat (split; [assumption|]).
  destruct (C1_question_retrieves_top5_and_forwards Sample.env _ _ _ _ _ _ H1 H2 H3)
    as (H & _).
  rewrite H4 in H. exact H.
Defined.

(** C2 at a first run, with no index on disk. *)
Lemma C2_witness :
  key_unconfigured (getenv Sample.env "OPENAI_API_KEY") = false
  /\ forall qa_chain,
       outcome (Main.setup Sample.env Runs.fresh) = Ret qa_chain
       <-> setup_ok Sample.env Runs.fresh qa_chain.
Proof.
  assert (H1 : key_unconfigured (getenv Sample.env "OPENAI_API_KEY") = false)
    by (vm_compute; reflexivity).
  split; [assumption|].
  destruct (C2_index_loaded_or_built Sample.env Runs.fresh H1) as (H & _).
  exact H.
Defined.

(** C3 at a first run over the sample corpus: every service answers, and
    the run goes through all the steps. *)
Lemma C3_witness :
  load_ok Sample.env Runs.fresh
  /\ outcome (Load.main Sample.env Runs.fresh) = Ret tt
  /\ steps_of (trace (Load.main Sample.env Runs.fresh)) = ingestion_steps
  /\ calls_of (trace (Load.main Sample.env Runs.fresh))
     = ingestion_calls [Sample.lei] [Sample.lei] Sample.ada [[1%Z; 0%Z]]
  /\ fs (after (Load.main Sample.env Runs.fresh))
     = <["vectorstore" := IndexFolder Sample.index]> (fs Runs.fresh).
Proof.
  assert (Hdir : fs Runs.fresh !! default_data_dir <> None) by (vm_compute; discriminate).
  assert (Hok : load_ok Sample.env Runs.fresh).
  { split; [reflexivity|]. split; [exact Hdir|].
    exists ["codigo_civil.docx"], [Sample.lei], [Sample.lei], Sample.ada, [[1%Z; 0%Z]].
    repeat split; reflexivity. }
  destruct (C3_ingestion_steps_in_order Sample.env Runs.fresh)
    as (_ & Hsteps & _ & Hret & _ & Hcalls).
  destruct (Hcalls ["codigo_civil.docx"] [Sample.lei] [Sample.lei] Sample.ada [[1%Z; 0%Z]]
              eq_refl Hdir eq_refl eq_refl eq_refl eq_refl eq_refl eq_refl eq_refl eq_refl
              eq_refl) as (Hc & Hfs).
  split; [exact Hok|]. split; [apply Hret; exact Hok|].
  split; [apply Hsteps, Hret; exact Hok|]. split; [exact Hc | exact Hfs].
Defined.

(** C6 at a scan that finds nothing, for load.py, and at a folder that is
    no saved index, for main.py. *)
Lemma C6_witness :
  load_failure Cases.no_files Runs.fresh
  = Some (Reported (error_line ("No .docx files found in " +:+ default_data_dir)))
  /\ setup_failure Sample.env Cases.stale
     = Some (Reported (error_line
                        "Error loading vectorstore: could not open vectorstore/index.faiss"))
  /\ outcome (Load.main Cases.no_files Runs.fresh) = Raise (SystemExit 1)
  /\ In (error_line ("No .docx files found in " +:+ default_data_dir))
        (trace (Load.main Cases.no_files Runs.fresh))
  /\ outcome (Main.main Sample.env 1 Cases.stale) = Raise (SystemExit 1)
  /\ In (error_line "Error loading vectorstore: could not open vectorstore/index.faiss")
        (trace (Main.main Sample.env 1 Cases.stale)).
Proof.
  assert (H1 : load_failure Cases.no_files Runs.fresh
               = Some (Reported (error_line ("No .docx files found in "
                                             +:+ default_data_dir))))
    by (vm_compute; reflexivity).
  assert (H2 : setup_failure Sample.env Cases.stale
               = Some (Reported (error_line
                   "Error loading vectorstore: could not open vectorstore/index.faiss")))
    by (vm_compute; reflexivity).
  repeat (split; [assumption|]).
  destruct (C6_failures_before_the_session_exit_1 Cases.no_files 1 Runs.fresh)
    as (Hload & _).
  destruct (C6_failures_before_the_session_exit_1 Sample.env 1 Cases.stale)
    as (_ & Hmain & _).
  rewrite H1 in Hload. rewrite H2 in Hmain.
  destruct Hload as (_ & Ha & Hb). destruct Hmain as (_ & Hc & Hd).
  repeat split; assumption.
Defined.

(** C5 at a single short document. *)
Lemma C5_witness :
  is_empty [Sample.lei] = false
  /\ calls_of (trace (Load.split_documents Sample.env [Sample.lei] default_chunk_size
                                           default_chunk_overlap Runs.fresh))
     = [CallSplit (mkSplitter 1000 200 len) [Sample.lei]].
Proof.
  assert (H1 : is_empty [Sample.lei] = false) by reflexivity.
  split; [assumption|].
  destruct (C5_split_documents_delegates Sample.env [Sample.lei] Runs.fresh H1)
    as (H & _).
  exact H.
Defined.

(** C7 at a loader that answers the same with and without threads. *)
Lemma C7_witness :
  loader_load Sample.env load_py_loader = loader_load Sample.env main_py_loader
  /\ rglob Sample.env default_data_dir "*.docx" = Ok ["codigo_civil.docx"]
  /\ fs Runs.fresh !! "vectorstore" = None
  /\ fs (after (Load.main Sample.env Runs.fresh))
     = fs (after (Main.setup Sample.env Runs.fresh)).
Proof.
  assert (H1 : loader_load Sample.env load_py_loader
               = loader_load Sample.env main_py_loader) by reflexivity.
  assert (H2 : rglob Sample.env default_data_dir "*.docx" = Ok ["codigo_civil.docx"])
    by reflexivity.
  assert (H3 : (length ["codigo_civil.docx"] =? 0)%nat = false) by reflexivity.
  assert (H4 : fs Runs.fresh !! "vectorstore" = None) by (vm_compute; reflexivity).
  repeat (split; [assumption|]).
  destruct (C7_same_index_when_loader_agrees Sample.env Runs.fresh _ H1 H2 H3 H4)
    as (H & _).
  exact H.
Defined.

(** C8 at a question on which the chat model times out. *)
Lemma C8_witness :
  outcome (Main.turn Sample.env Sample.chain Runs.failing)
  = Raise (Exception "Request timed out.")
  /\ outcome (Main.loop_body Sample.env Sample.chain Runs.failing) = Ret Main.Continue
  /\ question_count (after (Main.loop_body Sample.env Sample.chain Runs.failing))
     = question_count Runs.failing.
Proof.
  assert (H1 : outcome (Main.turn Sample.env Sample.chain Runs.failing)
               = Raise (Exception "Request timed out.")) by (vm_compute; reflexivity).
  split; [assumption|].
  destruct (C8_exception_keeps_the_session Sample.env Sample.chain 1 Runs.failing _ H1)
    as (Ha & Hb & _).
  split; [exact Ha | exact Hb].
Defined.

(** C9 at a line of a space, a no-break space and an em space. *)
Lemma C9_witness :
  stdin Runs.blank = [Line Runs.spaces; Line "sair"]
  /\ strip Runs.spaces = ""
  /\ Main.loop_body Sample.env Sample.chain Runs.blank
     = mkRun (Ret Main.Continue) (mkState (fs Runs.blank) [Line "sair"] 0) [the_prompt].
Proof.
  assert (H1 : stdin Runs.blank = [Line Runs.spaces; Line "sair"]) by reflexivity.
  assert (H2 : strip Runs.spaces = "") by (vm_compute; reflexivity).
  repeat (split; [assumption|]).
  destruct (C9_empty_line_is_skipped Sample.env Sample.chain 1 Runs.blank _ _ H1 H2)
    as (H & _).
  exact H.
Defined.

(** ** The end of the input *)

Section EndOfInput.
Variable env : Env.

Lemma loop_body_at_end_of_input qa_chain s :
  stdin s = [] ->
  outcome (Main.loop_body env qa_chain s) = Ret Main.Continue
  /\ stdin (after (Main.loop_body env qa_chain s)) = [].
Proof.
  intros Hin. unfold_turn. rewrite Hin. simpl. split; [reflexivity | exact Hin].
Qed.

(** Once the input is exhausted, [input] raises EOFError in every pass,
    the [except Exception] clause reports it, and the loop goes round
    again: no number of passes ends the session. *)
Theorem qa_loop_spins_at_end_of_input fuel qa_chain s :
  stdin s = [] ->
  outcome (Main.qa_loop env fuel qa_chain s) = Ret Main.OutOfFuel.
Proof.
  revert s. induction fuel as [|fuel IH]; intros s Hin; [reflexivity|].
  destruct (loop_body_at_end_of_input qa_chain s Hin) as [Hctl Hrest].
  rewrite (qa_loop_continue env fuel qa_chain s Hctl). apply IH. exact Hrest.
Qed.

End EndOfInput.

(** The loop at the end of the input of an empty session, after three
    passes. *)
Lemma qa_loop_spins_witness :
  stdin Runs.fresh = []
  /\ outcome (Main.qa_loop Sample.env 3 Sample.chain Runs.fresh) = Ret Main.OutOfFuel.
Proof.
  assert (H1 : stdin Runs.fresh = []) by reflexivity.
  split; [assumption|].
  exact (qa_loop_spins_at_end_of_input Sample.env 3 Sample.chain Runs.fresh H1).
Defined.

(** * Further properties of main.py *)

Section Commands.
Variable env : Env.

(** A pass takes exactly one input, whatever it does with it, and leaves
    the files alone. *)
Lemma loop_body_takes_one_input qa_chain s i rest :
  stdin s = i :: rest ->
  stdin (after (Main.loop_body env qa_chain s)) = rest
  /\ fs (after (Main.loop_body env qa_chain s)) = fs s.
Proof. intros Hin. unfold_turn. rewrite Hin. py_run; split; reflexivity. Qed.

Lemma loop_body_keeps_files qa_chain s :
  fs (after (Main.loop_body env qa_chain s)) = fs s.
Proof. unfold_turn. py_run; reflexivity. Qed.

(** No exit word is the empty string. *)
Lemma exit_word_not_empty query :
  str_in (lower query) exit_words = true -> (query =? "") = false.
Proof.
  intros H. destruct (query =? "") eqn:E; [|reflexivity].
  apply String.eqb_eq in E. subst query. vm_compute in H. discriminate H.
Qed.

(** The clear words are not exit words, and none is empty. *)
Lemma clear_word_is_no_exit_word query :
  str_in (lower query) clear_words = true ->
  (query =? "") = false /\ str_in (lower query) exit_words = false.
Proof.
  intros H. split.
  - destruct (query =? "") eqn:E; [|reflexivity].
    apply String.eqb_eq in E. subst query. vm_compute in H. discriminate H.
  - unfold str_in, clear_words in H. apply existsb_exists in H as (w & Hw & Heq).
    apply String.eqb_eq in Heq. rewrite Heq.
    simpl in Hw. destruct Hw as [<- | [<- | [<- | []]]]; reflexivity.
Qed.

(** The exit command: a line that is "sair", "exit" or "quit" once
    stripped and lowered ends the pass with [break] after the farewell,
    which states [question_count]; nothing third-party is called, and the
    loop is finished. *)
Theorem exit_word_ends_the_session qa_chain fuel s line rest :
  stdin s = Line line :: rest ->
  str_in (lower (strip line)) exit_words = true ->
  let pass := Main.loop_body env qa_chain s in
  outcome pass = Ret Main.Break
  /\ after pass = mkState (fs s) rest (question_count s)
  /\ calls_of (trace pass) = []
  /\ console (trace pass) = farewell_console (question_count s)
  /\ Main.qa_loop env (S fuel) qa_chain s = mkRun (Ret Main.Finished) (after pass) (trace pass).
Proof.
  intros Hin Hexit pass.
  pose proof (exit_word_not_empty _ Hexit) as Hne. unfold exit_words in Hexit.
  assert (Hpass : pass = mkRun (Ret Main.Break) (mkState (fs s) rest (question_count s))
                    (the_prompt :: Stdout "" :: trace (print_success
                       ("Encerrando JURISRAG. " +:+ str_of_nat (question_count s)
                        +:+ " perguntas respondidas. Até logo!") s)
                     ++ [Logged INFO ("Session ended. " +:+ str_of_nat (question_count s)
                                      +:+ " questions answered.")])%list).
  { unfold pass. unfold_turn. rewrite Hin. py_run. reflexivity. }
  repeat split; try (rewrite Hpass; reflexivity).
  apply qa_loop_break. fold pass. rewrite Hpass. reflexivity.
Qed.

(** The clear command: a line that is "limpar", "clear" or "cls" once
    stripped and lowered runs the shell command "cls" on Windows
    ([os.name] is "nt") and "clear" elsewhere, and nothing else: nothing
    is printed, [question_count] and the files stay, the pass ends with
    [continue]. *)
Theorem clear_word_only_clears_the_screen qa_chain s line rest :
  stdin s = Line line :: rest ->
  str_in (lower (strip line)) clear_words = true ->
  Main.loop_body env qa_chain s
  = mkRun (Ret Main.Continue) (mkState (fs s) rest (question_count s))
          [ the_prompt;
            Ext (CallSystem (if os_name env =? "nt" then "cls" else "clear")) ].
Proof.
  intros Hin Hclear.
  destruct (clear_word_is_no_exit_word _ Hclear) as [Hne Hexit].
  unfold exit_words in Hexit. unfold clear_words in Hclear.
  unfold_turn. rewrite Hin. unfold Main.clear_command.
  destruct (os_name env =? "nt"); py_run; reflexivity.
Qed.

(** Ctrl-C leaves the body of the [try] only before the counter is
    touched. *)
Lemma turn_interrupt_state qa_chain s :
  outcome (Main.turn env qa_chain s) = Raise KeyboardInterrupt ->
  question_count (after (Main.turn env qa_chain s)) = question_count s.
Proof. unfold_turn. py_run; intros H; try discriminate H; reflexivity. Qed.

(** Ctrl-C during a pass, at the prompt or while the chain is being
    called, ends the session in the normal way: the pass reports the
    interruption with the unchanged [question_count] and ends with [break],
    so the loop is finished and no exception leaves it. *)
Theorem interrupt_ends_the_session_normally qa_chain fuel s :
  outcome (Main.turn env qa_chain s) = Raise KeyboardInterrupt ->
  let pass := Main.loop_body env qa_chain s in
  outcome pass = Ret Main.Break
  /\ question_count (after pass) = question_count s
  /\ trace pass
     = (trace (Main.turn env qa_chain s)
        ++ [ Stdout "";
             StdoutColor BRIGHT YELLOW ("⚠️  " +:+ "Interrompido pelo usuário");
             Logged WARNING "Interrompido pelo usuário";
             Logged INFO ("Session interrupted. " +:+ str_of_nat (question_count s)
                          +:+ " questions answered.") ])%list
  /\ outcome (Main.qa_loop env (S fuel) qa_chain s) = Ret Main.Finished.
Proof.
  intros Hraise pass.
  pose proof (turn_interrupt_state qa_chain s Hraise) as Hcount.
  assert (Hpass : pass = prepend (trace (Main.turn env qa_chain s))
                           (Main.on_interrupt (after (Main.turn env qa_chain s)))).
  { unfold pass, Main.loop_body. rewrite try_except2_run, Hraise. reflexivity. }
  assert (Hout : outcome pass = Ret Main.Break) by (rewrite Hpass; reflexivity).
  repeat split.
  - exact Hout.
  - rewrite Hpass. exact Hcount.
  - rewrite Hpass. simpl. rewrite Hcount. reflexivity.
  - rewrite (qa_loop_break env fuel qa_chain s Hout). reflexivity.
Qed.

End Commands.

Section Counting.
Variable env : Env.

Lemma answers_shown_app t1 t2 :
  answers_shown (t1 ++ t2) = (answers_shown t1 + answers_shown t2)%nat.
Proof. unfold answers_shown. rewrite filter_app, length_app. reflexivity. Qed.

(** A pass adds one to the counter exactly when it shows an answer. *)
Lemma loop_body_counts_answers qa_chain s :
  question_count (after (Main.loop_body env qa_chain s))
  = (question_count s + answers_shown (trace (Main.loop_body env qa_chain s)))%nat.
Proof. unfold_turn. py_run; unfold answers_shown; simpl; lia. Qed.

(** Throughout the session [question_count] is the number it had at the
    start plus the number of answers shown since: a failed question, an
    empty line and the commands do not count, an answered question counts
    once. *)
Theorem question_count_counts_the_answers fuel qa_chain s :
  question_count (after (Main.qa_loop env fuel qa_chain s))
  = (question_count s + answers_shown (trace (Main.qa_loop env fuel qa_chain s)))%nat.
Proof.
  revert s. induction fuel as [|fuel IH]; intros s.
  - simpl. unfold answers_shown. simpl. lia.
  - pose proof (loop_body_counts_answers qa_chain s) as Hpass.
    destruct (loop_body_total env qa_chain s) as [[|] Hctl].
    + rewrite (qa_loop_continue env fuel qa_chain s Hctl). unfold prepend. simpl.
      rewrite answers_shown_app, IH, Hpass. lia.
    + rewrite (qa_loop_break env fuel qa_chain s Hctl). simpl. exact Hpass.
Qed.

(** An input that stops the session makes its pass end with [break]. *)
Lemma loop_body_stops qa_chain s i rest :
  stdin s = i :: rest -> stops i = true ->
  outcome (Main.loop_body env qa_chain s) = Ret Main.Break.
Proof.
  intros Hin Hstop. destruct i as [line|]; simpl in Hstop.
  - pose proof (exit_word_not_empty _ Hstop) as Hne. unfold exit_words in Hstop.
    unfold_turn. rewrite Hin. py_run. reflexivity.
  - unfold_turn. rewrite Hin. py_run. reflexivity.
Qed.

Lemma qa_loop_finishes_on (l : list Input) :
  forall fuel qa_chain s,
    stdin s = l -> existsb stops l = true -> length l <= fuel ->
    outcome (Main.qa_loop env fuel qa_chain s) = Ret Main.Finished.
Proof.
  induction l as [|i rest IH]; intros fuel qa_chain s Hin Hstop Hfuel;
    [discriminate Hstop|].
  destruct fuel as [|fuel]; [simpl in Hfuel; lia|].
  simpl in Hstop, Hfuel. destruct (stops i) eqn:Hi.
  - rewrite (qa_loop_break env fuel qa_chain s (loop_body_stops _ _ _ _ Hin Hi)).
    reflexivity.
  - destruct (loop_body_total env qa_chain s) as [[|] Hctl].
    + rewrite (qa_loop_continue env fuel qa_chain s Hctl). unfold prepend. simpl.
      apply IH; [|exact Hstop|lia].
      apply (loop_body_takes_one_input env qa_chain s i rest Hin).
    + rewrite (qa_loop_break env fuel qa_chain s Hctl). reflexivity.
Qed.

(** A session whose input holds an exit word or a Ctrl-C comes to its end:
    as many passes as there are inputs are enough for the loop to finish,
    whatever the services answer in between. *)
Theorem session_with_a_stop_finishes fuel qa_chain s :
  existsb stops (stdin s) = true ->
  length (stdin s) <= fuel ->
  outcome (Main.qa_loop env fuel qa_chain s) = Ret Main.Finished.
Proof. intros Hstop Hfuel. exact (qa_loop_finishes_on _ _ _ _ eq_refl Hstop Hfuel). Qed.

End Counting.

(** * Further properties of both scripts *)

Section Disk.
Variable env : Env.

Lemma qa_loop_keeps_files fuel qa_chain s :
  fs (after (Main.qa_loop env fuel qa_chain s)) = fs s.
Proof.
  revert s. induction fuel as [|fuel IH]; intros s; [reflexivity|].
  pose proof (loop_body_keeps_files env qa_chain s) as Hpass.
  destruct (loop_body_total env qa_chain s) as [[|] Hctl].
  - rewrite (qa_loop_continue env fuel qa_chain s Hctl). unfold prepend. simpl.
    rewrite IH. exact Hpass.
  - rewrite (qa_loop_break env fuel qa_chain s Hctl). exact Hpass.
Qed.

(** After the start-up nothing touches the files. *)
Lemma main_files fuel s :
  fs (after (Main.main env fuel s)) = fs (after (Main.setup env s)).
Proof.
  rewrite main_run.
  destruct (outcome (Main.setup env s)) as [qa_chain|[msg| |code]]; try reflexivity.
  unfold prepend. simpl. rewrite bind_run. simpl. rewrite qa_loop_keeps_files. reflexivity.
Qed.

(** The start-up leaves the files as they are or with the index written,
    and as they are when the path "vectorstore" exists. *)
Lemma setup_files s :
  (fs (after (Main.setup env s)) = fs s
   \/ exists vs, fs (after (Main.setup env s)) = <["vectorstore" := IndexFolder vs]> (fs s))
  /\ (fs s !! "vectorstore" <> None -> fs (after (Main.setup env s)) = fs s).
Proof.
  unfold_setup. py_run.
  all: split; [first [left; reflexivity | right; eexists; reflexivity]
              | first [reflexivity | intros H; congruence]].
Qed.

(** load.py leaves the files as they are or with the index written, and
    with the index written when it ends normally. *)
Lemma load_files s :
  (fs (after (Load.main env s)) = fs s
   \/ exists vs, fs (after (Load.main env s)) = <["vectorstore" := IndexFolder vs]> (fs s))
  /\ (outcome (Load.main env s) = Ret tt ->
      exists vs, fs (after (Load.main env s)) = <["vectorstore" := IndexFolder vs]> (fs s)).
Proof.
  unfold_load. py_run.
  all: split; [first [left; reflexivity | right; eexists; reflexivity]
              | first [discriminate | intros _; eexists; reflexivity]].
Qed.

(** What load.py and the start-up of main.py save, they save through
    [save_local] on the folder "vectorstore". *)
Lemma load_saves s :
  fs (after (Load.main env s)) = fs s
  \/ exists vs, In (Ext (CallSaveLocal vs "vectorstore")) (trace (Load.main env s))
                /\ fs (after (Load.main env s)) = <["vectorstore" := IndexFolder vs]> (fs s).
Proof.
  unfold_load. py_run.
  all: first [ left; reflexivity | right; eexists; split; [find_event | reflexivity] ].
Qed.

Lemma setup_saves s :
  fs (after (Main.setup env s)) = fs s
  \/ exists vs, In (Ext (CallSaveLocal vs "vectorstore")) (trace (Main.setup env s))
                /\ fs (after (Main.setup env s)) = <["vectorstore" := IndexFolder vs]> (fs s).
Proof.
  unfold_setup. py_run.
  all: first [ left; reflexivity | right; eexists; split; [find_event | reflexivity] ].
Qed.

Lemma setup_trace_in_main fuel s e :
  In e (trace (Main.setup env s)) -> In e (trace (Main.main env fuel s)).
Proof.
  intros Hin. rewrite main_run. unfold prepend. cbn [trace].
  apply in_or_app. right.
  destruct (outcome (Main.setup env s)) as [qa_chain|[msg| |code]]; cbn [trace];
    try exact Hin; apply in_or_app; left; exact Hin.
Qed.

(** The scripts change the files in one way only, by saving the index: a
    run of load.py or of main.py leaves the files as they were, or with
    the folder "vectorstore" holding the store that a [save_local] call
    of that run was given; load.py has saved whenever it ends normally,
    and main.py saves nothing when the path "vectorstore" exists at the
    start, whatever it holds and however the run goes. *)
Theorem files_change_only_by_save_local fuel s :
  let load := Load.main env s in
  let main := Main.main env fuel s in
  (fs (after load) = fs s
   \/ exists vs, In (Ext (CallSaveLocal vs "vectorstore")) (trace load)
                 /\ fs (after load) = <["vectorstore" := IndexFolder vs]> (fs s))
  /\ (fs (after main) = fs s
      \/ exists vs, In (Ext (CallSaveLocal vs "vectorstore")) (trace main)
                    /\ fs (after main) = <["vectorstore" := IndexFolder vs]> (fs s))
  /\ (outcome load = Ret tt ->
      exists vs, In (Ext (CallSaveLocal vs "vectorstore")) (trace load)
                 /\ fs (after load) = <["vectorstore" := IndexFolder vs]> (fs s))
  /\ (fs s !! "vectorstore" <> None -> fs (after main) = fs s).
Proof.
  intros load main. split; [apply load_saves|]. split; [|split].
  - unfold main. rewrite main_files.
    destruct (setup_saves s) as [Hsame | (vs & Hin & Hfs)]; [left; exact Hsame|].
    right. exists vs. split; [apply setup_trace_in_main; exact Hin | exact Hfs].
  - intros Hok. destruct (load_main_steps env s) as (_ & Hiff & Hsaved).
    apply Hiff in Hok. fold load in Hsaved.
    destruct Hsaved as (vs & Hfs & Hcall).
    { fold load in Hok. rewrite Hok. unfold ingestion_steps. simpl. auto 10. }
    exists vs. split; [|exact Hfs].
    unfold calls_of in Hcall. apply list_elem_of_In, list_elem_of_omap in Hcall.
    destruct Hcall as (e & He & Heq). destruct e; try discriminate.
    inversion Heq; subst. apply list_elem_of_In. exact He.
  - intros Hex. unfold main. rewrite main_files. apply setup_files. exact Hex.
Qed.

Lemma key_refused_iff api_key :
  key_refused api_key <-> key_unconfigured api_key = true.
Proof.
  unfold key_refused, key_unconfigured. split.
  - intros [-> | [-> | ->]]; reflexivity.
  - destruct api_key as [key|]; [|auto]. intros H.
    apply orb_true_iff in H as [H | H]; apply String.eqb_eq in H; subst; auto.
Qed.

(** The key comes first: with OPENAI_API_KEY unset, empty or left at its
    placeholder, both scripts report "OpenAI API key not configured!" and
    exit with code 1 before any third-party call and without touching the
    state; no credit is spent and nothing is read. *)
Theorem refused_key_stops_before_any_call fuel s :
  key_refused (getenv env "OPENAI_API_KEY") ->
  outcome (Load.main env s) = Raise (SystemExit 1)
  /\ outcome (Main.main env fuel s) = Raise (SystemExit 1)
  /\ calls_of (trace (Load.main env s)) = []
  /\ calls_of (trace (Main.main env fuel s)) = []
  /\ after (Load.main env s) = s
  /\ after (Main.main env fuel s) = s
  /\ In (error_line "OpenAI API key not configured!") (trace (Load.main env s))
  /\ In (error_line "OpenAI API key not configured!") (trace (Main.main env fuel s)).
Proof.
  intros Hkey. apply key_refused_iff in Hkey.
  assert (Hsetup : Main.setup env s
            = mkRun (Raise (SystemExit 1)) s
                [ error_line "OpenAI API key not configured!";
                  Logged ERROR "OpenAI API key not configured!";
                  Stdout "Please configure your API key in the .env file before running.";
                  Stdout "See .env file for instructions." ]).
  { unfold_setup. rewrite Hkey. destruct s. reflexivity. }
  rewrite (main_when_setup_exits env fuel s 1) by (rewrite Hsetup; reflexivity).
  rewrite Hsetup. unfold_load. rewrite Hkey. destruct s. simpl.
  repeat split; try reflexivity; auto 20.
Qed.

(** A missing data directory: with a configured key, load.py, and main.py
    when it has no index to load, report "Directory not found: ..." and
    exit with code 1 without any third-party call and without touching
    the files. *)
Theorem missing_directory_stops_before_any_call fuel s :
  key_unconfigured (getenv env "OPENAI_API_KEY") = false ->
  fs s !! default_data_dir = None ->
  (outcome (Load.main env s) = Raise (SystemExit 1)
   /\ calls_of (trace (Load.main env s)) = []
   /\ fs (after (Load.main env s)) = fs s
   /\ In (error_line ("Directory not found: " +:+ default_data_dir))
         (trace (Load.main env s)))
  /\ (fs s !! "vectorstore" = None ->
      outcome (Main.main env fuel s) = Raise (SystemExit 1)
      /\ calls_of (trace (Main.main env fuel s)) = []
      /\ fs (after (Main.main env fuel s)) = fs s
      /\ In (error_line ("Directory not found: " +:+ default_data_dir))
            (trace (Main.main env fuel s))).
Proof.
  intros Hkey Hdir. split.
  - unfold_load. rewrite Hkey. py_run. repeat split; try reflexivity. simpl. auto 30.
  - intros Hnone.
    assert (Hsetup : outcome (Main.setup env s) = Raise (SystemExit 1)
                     /\ calls_of (trace (Main.setup env s)) = []
                     /\ fs (after (Main.setup env s)) = fs s
                     /\ In (error_line ("Directory not found: " +:+ default_data_dir))
                           (trace (Main.setup env s))).
    { unfold_setup. rewrite Hkey. py_run. repeat split; try reflexivity. simpl. auto 30. }
    destruct Hsetup as (Hout & Hcalls & Hfs & Hmsg).
    rewrite (main_when_setup_exits env fuel s 1 Hout). cbn [outcome after trace].
    rewrite calls_of_main_banner.
    repeat split; try assumption. apply in_or_app. right. exact Hmsg.
Qed.

End Disk.

Section IndexOnDisk.
Variable env : Env.

Lemma setup_never_scans s :
  Forall (fun e => ~ is_scan e) (trace (Main.setup env s)).
Proof. unfold_setup. py_run; each_event. Qed.

Lemma loop_body_never_scans qa_chain s :
  Forall (fun e => ~ is_scan e) (trace (Main.loop_body env qa_chain s)).
Proof. unfold_turn. py_run; each_event. Qed.

(** The scan is a guard of load.py only: when it finds no .docx file,
    load.py reports "No .docx files found in ..." and exits with code 1
    with the scan as its one third-party call, the loader is never
    started and the files stay; main.py never scans at all. *)
Theorem empty_scan_stops_load_before_the_loader s :
  key_unconfigured (getenv env "OPENAI_API_KEY") = false ->
  fs s !! default_data_dir <> None ->
  rglob env default_data_dir "*.docx" = Ok [] ->
  outcome (Load.main env s) = Raise (SystemExit 1)
  /\ calls_of (trace (Load.main env s)) = [CallRglob default_data_dir "*.docx"]
  /\ fs (after (Load.main env s)) = fs s
  /\ In (error_line ("No .docx files found in " +:+ default_data_dir))
        (trace (Load.main env s))
  /\ forall fuel s', Forall (fun e => ~ is_scan e) (trace (Main.main env fuel s')).
Proof.
  intros Hkey Hdir Hscan. split; [|split; [|split; [|split]]].
  5: { intros fuel s'. apply main_invariant; try (intros; exact (fun H => H)).
       - apply setup_never_scans.
       - intros qa_chain _ s2. apply loop_body_never_scans. }
  all: unfold_load; rewrite Hkey; py_run; try congruence; try reflexivity.
  simpl. auto 40.
Qed.

(** A path "vectorstore" that cannot be read as an index is never
    repaired by main.py: it reports "Error loading vectorstore: ...",
    advises to run load.py again and exits with code 1, having called
    nothing but the embeddings constructor and the load, and leaving the
    files as they were. *)
Theorem unreadable_index_is_not_rebuilt fuel s node emb msg :
  key_unconfigured (getenv env "OPENAI_API_KEY") = false ->
  fs s !! "vectorstore" = Some node ->
  new_OpenAIEmbeddings env = Ok emb ->
  read_index env (Some node) emb true = Fails msg ->
  outcome (Main.main env fuel s) = Raise (SystemExit 1)
  /\ calls_of (trace (Main.main env fuel s))
     = [CallNewEmbeddings; CallLoadLocal "vectorstore" true]
  /\ fs (after (Main.main env fuel s)) = fs s
  /\ In (error_line ("Error loading vectorstore: " +:+ msg)) (trace (Main.main env fuel s))
  /\ In (Stdout "The vectorstore may be corrupted. Try running 'python load.py' again.")
        (trace (Main.main env fuel s)).
Proof.
  intros Hkey Hfs Hemb Hread. rewrite <- Hfs in Hread.
  assert (Hsetup :
    outcome (Main.setup env s) = Raise (SystemExit 1)
    /\ calls_of (trace (Main.setup env s))
       = [CallNewEmbeddings; CallLoadLocal "vectorstore" true]
    /\ fs (after (Main.setup env s)) = fs s
    /\ In (error_line ("Error loading vectorstore: " +:+ msg)) (trace (Main.setup env s))
    /\ In (Stdout "The vectorstore may be corrupted. Try running 'python load.py' again.")
          (trace (Main.setup env s))).
  { unfold_setup. rewrite Hkey. py_run.
    repeat split; try reflexivity; simpl; auto 30. }
  destruct Hsetup as (Hout & Hcalls & Hfiles & Hmsg & Hadvice).
  rewrite (main_when_setup_exits env fuel s 1 Hout). cbn [outcome after trace].
  rewrite calls_of_main_banner.
  repeat split; try assumption; apply in_or_app; right; assumption.
Qed.

(** load.py, then main.py: when load.py ends normally, the folder holds
    the index it saved, and a start-up of main.py on the files it left
    takes the loading branch, builds nothing and writes nothing; if the
    folder reads back as the index that was saved, the chain main.py
    answers with retrieves from exactly that index. *)
Theorem main_after_load_uses_the_saved_index s :
  outcome (Load.main env s) = Ret tt ->
  let s1 := after (Load.main env s) in
  exists vs,
    fs s1 = <["vectorstore" := IndexFolder vs]> (fs s)
    /\ In loading_message (trace (Main.setup env s1))
    /\ filter is_build_call (calls_of (trace (Main.setup env s1))) = []
    /\ fs (after (Main.setup env s1)) = fs s1
    /\ forall emb llm,
         new_OpenAIEmbeddings env = Ok emb ->
         read_index env (Some (IndexFolder vs)) emb true = Ok vs ->
         new_ChatOpenAI env "gpt-3.5-turbo" 0 = Ok llm ->
         outcome (Main.setup env s1)
         = Ret (mkRetrievalQA llm "stuff" (mkRetriever vs 5) true).
Proof.
  intros Hok s1.
  assert (Hkey : key_unconfigured (getenv env "OPENAI_API_KEY") = false).
  { destruct (load_main_outcome env s) as [[Hload _] | (_ & Hexit)];
      [apply Hload | congruence]. }
  destruct (load_files env s) as [_ Hsaved]. destruct (Hsaved Hok) as [vs Hfs].
  exists vs. fold s1 in Hfs.
  assert (Hlook : fs s1 !! "vectorstore" = Some (IndexFolder vs))
    by (rewrite Hfs; apply lookup_insert_eq).
  pose proof (setup_branches env s1 Hkey) as Hbranch. rewrite Hlook in Hbranch.
  destruct Hbranch as (Hmsg & _ & Hcalls & Hkeep).
  repeat split; try assumption.
  intros emb llm Hemb Hread Hllm. apply setup_returns_iff.
  unfold setup_ok. rewrite Hlook. simpl.
  repeat split; try assumption. exists emb. split; assumption.
Qed.

End IndexOnDisk.

(** * Properties of list_processed_docs.py *)

Module ListDocsFacts.
Import ListDocs.

Lemma names_in_cons category names grouped :
  names_in ((category, names) :: grouped) = (length names + names_in grouped)%nat.
Proof. reflexivity. Qed.

Lemma add_to_group_names_in parent name grouped :
  names_in (add_to_group parent name grouped) = S (names_in grouped).
Proof.
  induction grouped as [|[category names] others IH]; [reflexivity|].
  simpl. destruct (category =? parent).
  - rewrite !names_in_cons, length_app. simpl. lia.
  - rewrite !names_in_cons, IH. lia.
Qed.

Lemma add_to_group_keys parent name grouped key :
  In key (map fst (add_to_group parent name grouped))
  <-> key = parent \/ In key (map fst grouped).
Proof.
  induction grouped as [|[category names] others IH]; simpl; [intuition|].
  destruct (category =? parent) eqn:E; simpl.
  - apply String.eqb_eq in E. subst. intuition.
  - rewrite IH. intuition.
Qed.

Lemma add_to_group_NoDup parent name grouped :
  NoDup (map fst grouped) -> NoDup (map fst (add_to_group parent name grouped)).
Proof.
  induction grouped as [|[category names] others IH]; simpl; intros Hnd.
  - apply NoDup_singleton.
  - apply NoDup_cons in Hnd as [Hnew Hnd].
    destruct (category =? parent) eqn:E; simpl.
    + apply NoDup_cons. split; assumption.
    + apply NoDup_cons. split; [|apply IH; exact Hnd].
      rewrite list_elem_of_In, add_to_group_keys. intros [-> | H].
      * rewrite String.eqb_refl in E. discriminate E.
      * apply Hnew. apply list_elem_of_In. exact H.
Qed.

Lemma add_to_group_nonempty parent name grouped :
  Forall (fun entry => snd entry <> []) grouped ->
  Forall (fun entry => snd entry <> []) (add_to_group parent name grouped).
Proof.
  induction grouped as [|[category names] others IH]; simpl; intros Hall.
  - repeat constructor. discriminate.
  - inversion Hall as [|? ? Hhd Htl]; subst.
    destruct (category =? parent); constructor; auto.
    simpl. destruct names; discriminate.
Qed.

Lemma add_to_group_lists_it parent name grouped :
  listed (add_to_group parent name grouped) parent name.
Proof.
  induction grouped as [|[category names] others IH]; simpl.
  - exists [name]. simpl. auto.
  - destruct (category =? parent) eqn:E.
    + apply String.eqb_eq in E. subst.
      exists (names ++ [name])%list. split; [left; reflexivity|].
      apply in_or_app. right. left. reflexivity.
    + destruct IH as (found & Hin & Hname). exists found. split; [right|]; assumption.
Qed.

Lemma add_to_group_keeps parent name grouped category other :
  listed grouped category other ->
  listed (add_to_group parent name grouped) category other.
Proof.
  intros (found & Hin & Hother).
  induction grouped as [|[key names] others IH]; simpl in *; [contradiction|].
  destruct Hin as [Heq | Hin].
  - inversion Heq; subst. destruct (category =? parent).
    + exists (found ++ [name])%list. split; [left; reflexivity|].
      apply in_or_app. left. exact Hother.
    + exists found. split; [left; reflexivity | exact Hother].
  - destruct (key =? parent).
    + exists found. split; [right|]; assumption.
    + destruct (IH Hin) as (found' & Hin' & Hother').
      exists found'. split; [right|]; assumption.
Qed.

(** What the grouping loop keeps and adds, from any dict it starts with. *)
Lemma group_files_spec data_dir docx_files :
  forall start grouped,
    group_files data_dir docx_files start = inr grouped ->
    names_in grouped = (names_in start + length docx_files)%nat
    /\ (NoDup (map fst start) -> NoDup (map fst grouped))
    /\ (Forall (fun entry => snd entry <> []) start ->
        Forall (fun entry => snd entry <> []) grouped)
    /\ (forall category other, listed start category other -> listed grouped category other)
    /\ (forall file, In file docx_files ->
          exists rel_path,
            relative_to (parts file) (parts data_dir) = Some rel_path
            /\ listed grouped (parent rel_path) (name rel_path)).
Proof.
  induction docx_files as [|file others IH]; intros start grouped Hrun; simpl in Hrun.
  - inversion Hrun; subst. split; [simpl; lia|].
    split; [auto|]. split; [auto|]. split; [auto|]. intros ? [].
  - destruct (relative_to (parts file) (parts data_dir)) as [rel_path|] eqn:Hrel;
      [|discriminate Hrun].
    destruct (IH _ _ Hrun) as (Hcount & Hnd & Hne & Hkeep & Hall).
    repeat split.
    + rewrite Hcount, add_to_group_names_in. simpl. lia.
    + intros H. apply Hnd, add_to_group_NoDup, H.
    + intros H. apply Hne, add_to_group_nonempty, H.
    + intros category other H. apply Hkeep, add_to_group_keeps, H.
    + intros f [<- | Hin]; [|apply Hall; exact Hin].
      exists rel_path. split; [exact Hrel|]. apply Hkeep, add_to_group_lists_it.
Qed.

Lemma dict_set_fresh key value d :
  ~ In key (map fst d) -> dict_set key value d = (d ++ [(key, value)])%list.
Proof.
  induction d as [|[k v] others IH]; simpl; intros Hfresh; [reflexivity|].
  destruct (k =? key) eqn:E.
  - apply String.eqb_eq in E. subst. exfalso. apply Hfresh. left. reflexivity.
  - rewrite IH; [reflexivity|]. intros H. apply Hfresh. right. exact H.
Qed.

(** With every category once, dumping them one by one gives each category
    with its sorted names, in the order of insertion. *)
Lemma sorted_categories_map grouped :
  NoDup (map fst grouped) ->
  sorted_categories grouped
  = map (fun entry => (fst entry, sorted_strings (snd entry))) grouped.
Proof.
  unfold sorted_categories.
  assert (Hgen : forall done,
            NoDup (map fst grouped) ->
            (forall key, In key (map fst grouped) -> ~ In key (map fst done)) ->
            fold_left (fun d entry => dict_set (fst entry) (sorted_strings (snd entry)) d)
                      grouped done
            = (done ++ map (fun entry => (fst entry, sorted_strings (snd entry))) grouped)%list).
  { induction grouped as [|[category names] others IH]; intros done Hnd Hfresh; simpl.
    - rewrite app_nil_r. reflexivity.
    - apply NoDup_cons in Hnd as [Hnew Hnd]. simpl in Hfresh.
      rewrite dict_set_fresh by (apply Hfresh; left; reflexivity).
      rewrite IH; [rewrite <- app_assoc; reflexivity | exact Hnd |].
      intros key Hkey. rewrite map_app. simpl. intros Hin.
      apply in_app_or in Hin as [Hin | [<- | []]].
      + apply (Hfresh key); [right; exact Hkey | exact Hin].
      + apply Hnew. apply list_elem_of_In. exact Hkey. }
  intros Hnd. apply (Hgen [] Hnd). intros key _ [].
Qed.

Lemma sorted_strings_length l : length (sorted_strings l) = length l.
Proof. unfold sorted_strings. apply Permutation_length, merge_sort_Permutation. Qed.

Lemma sorted_strings_In x l : In x (sorted_strings l) <-> In x l.
Proof.
  unfold sorted_strings. split; apply Permutation_in.
  - apply merge_sort_Permutation.
  - symmetry. apply merge_sort_Permutation.
Qed.

Lemma sorted_paths_length l : length (sorted_paths l) = length l.
Proof. unfold sorted_paths. apply Permutation_length, merge_sort_Permutation. Qed.

Lemma sorted_paths_In x l : In x (sorted_paths l) <-> In x l.
Proof.
  unfold sorted_paths. split; apply Permutation_in.
  - apply merge_sort_Permutation.
  - symmetry. apply merge_sort_Permutation.
Qed.

(** The JSON agrees with itself: when the grouping goes through,
    [total_documents] is the number of files found and the number of
    names over all categories, [total_categories] is the number of
    categories, no category occurs twice, and every category has a
    non-empty list of names in ascending order. *)
Theorem doc_list_totals_agree data_dir now found grouped :
  group_files data_dir (sorted_paths found) [] = inr grouped ->
  let d := make_doc_list data_dir now (sorted_paths found) grouped in
  total_documents d = length found
  /\ names_in (categories d) = total_documents d
  /\ total_categories d = length (categories d)
  /\ NoDup (map fst (categories d))
  /\ Forall (fun entry => snd entry <> [] /\ Sorted str_le (snd entry)) (categories d).
Proof.
  intros Hrun d.
  destruct (group_files_spec _ _ _ _ Hrun) as (Hcount & Hnd & Hne & _ & _).
  specialize (Hnd NoDup_nil_2). specialize (Hne (Forall_nil_2 _)).
  unfold d, make_doc_list. simpl. rewrite (sorted_categories_map _ Hnd).
  split; [apply sorted_paths_length|]. split; [|split; [|split]].
  - transitivity (names_in grouped); [|rewrite Hcount; reflexivity].
    unfold names_in. rewrite map_map. simpl. f_equal. apply map_ext. intros entry.
    apply sorted_strings_length.
  - rewrite length_map. reflexivity.
  - rewrite map_map. simpl. exact Hnd.
  - apply Forall_map. simpl. eapply Forall_impl; [exact Hne|]. intros entry Hentry. split.
    + intros Hnil. apply Hentry. apply (f_equal (@length string)) in Hnil.
      rewrite sorted_strings_length in Hnil. destruct (snd entry); [reflexivity|discriminate].
    + apply Sorted_merge_sort. apply _.
Qed.

(** Nothing found is left out: when the grouping goes through, every file
    of the scan lies under the directory and its name is in the JSON under
    the category of its folder ("Root" for the directory itself). *)
Theorem every_file_is_listed data_dir now found grouped file :
  group_files data_dir (sorted_paths found) [] = inr grouped ->
  In file found ->
  exists rel_path,
    relative_to (parts file) (parts data_dir) = Some rel_path
    /\ listed (categories (make_doc_list data_dir now (sorted_paths found) grouped))
              (parent rel_path) (name rel_path).
Proof.
  intros Hrun Hfile.
  destruct (group_files_spec _ _ _ _ Hrun) as (_ & Hnd & _ & _ & Hall).
  specialize (Hnd NoDup_nil_2).
  destruct (Hall file) as (rel_path & Hrel & names & Hin & Hname);
    [apply sorted_paths_In; exact Hfile|].
  exists rel_path. split; [exact Hrel|].
  unfold make_doc_list. simpl. rewrite (sorted_categories_map _ Hnd).
  exists (sorted_strings names). split.
  - apply in_map_iff. exists (parent rel_path, names). split; [reflexivity | exact Hin].
  - apply sorted_strings_In. exact Hname.
Qed.

End ListDocsFacts.

Module ListDocsRuns.
Import ListDocs.

Section WithEnv.
Variable env : Env.
Variable colors : Colorama.
Variable now : string.
Variable log_size : N.
Variable log_lines : list string.

Lemma only_prints_bind {A B} (m : Py A) (k : A -> Py B) s :
  only_prints (m s) s ->
  (forall a, only_prints (k a s) s) ->
  only_prints (bind m k s) s.
Proof.
  intros ([a Ha] & Hs & Ht) Hk. rewrite bind_run, Ha, Hs.
  destruct (Hk a) as ([b Hb] & Hs' & Ht').
  unfold only_prints, prepend. simpl. repeat split; eauto.
  apply Forall_app. split; assumption.
Qed.

Lemma print_only_prints text s : only_prints (print text s) s.
Proof. unfold only_prints, print, emit. simpl. repeat split; eauto. repeat constructor. Qed.

Lemma ret_only_prints {A} (a : A) s : only_prints (ret a s) s.
Proof. unfold only_prints, ret. simpl. repeat split; eauto. Qed.

Lemma print_files_only_prints filenames : forall i s, only_prints (print_files i filenames s) s.
Proof.
  induction filenames as [|filename others IH]; intros i s; simpl.
  - apply ret_only_prints.
  - apply only_prints_bind; [apply print_only_prints | intros _; apply IH].
Qed.

Lemma print_header_only_prints message s : only_prints (print_header colors message s) s.
Proof.
  unfold print_header.
  repeat (apply only_prints_bind; [apply print_only_prints | intros _]).
  apply print_only_prints.
Qed.

Lemma lookup_group_key category grouped :
  In category (map fst grouped) -> exists files, lookup_group category grouped = Some files.
Proof.
  unfold lookup_group. induction grouped as [|[key names] others IH]; simpl; [intros []|].
  intros [<- | Hin].
  - rewrite String.eqb_refl. simpl. eauto.
  - destruct (key =? category); simpl; [eauto | apply IH; exact Hin].
Qed.

(** Listing the categories of the dict never meets a missing key. *)
Lemma print_categories_only_prints grouped keys :
  (forall category, In category keys -> In category (map fst grouped)) ->
  forall s, only_prints (print_categories colors keys grouped s) s.
Proof.
  induction keys as [|category others IH]; intros Hkeys s; simpl.
  - apply ret_only_prints.
  - destruct (lookup_group_key category grouped) as [files ->];
      [apply Hkeys; left; reflexivity|].
    apply only_prints_bind; [apply print_only_prints | intros _].
    apply only_prints_bind; [apply print_files_only_prints | intros _].
    apply only_prints_bind; [apply print_only_prints | intros _].
    apply IH. intros c Hc. apply Hkeys. right. exact Hc.
Qed.

Lemma calls_of_prints t : Forall is_print t -> calls_of t = [].
Proof.
  induction 1 as [|e t He _ IH]; [reflexivity|].
  destruct e; try contradiction. exact IH.
Qed.

(** The listing goes through whenever the directory exists, the scan
    answers, every file it found lies under the directory and no folder
    is in the place of "processed_documents.json": the run ends normally,
    its one third-party call is the scan, the counts it prints are those
    of the files found and of the dict, and the one change to the files
    is "processed_documents.json". *)
Theorem list_source_documents_writes_the_list s found grouped :
  fs s !! default_data_dir <> None ->
  rglob env default_data_dir "*.docx" = Ok found ->
  group_files default_data_dir (sorted_paths found) [] = inr grouped ->
  outcome (path_isdir "processed_documents.json" s) = Ret false ->
  let r := list_source_documents env colors now s in
  outcome r = Ret tt
  /\ fs (after r) = <["processed_documents.json" := RegularFile]> (fs s)
  /\ calls_of (trace r) = [CallRglob default_data_dir "*.docx"]
  /\ In (Stdout (fore colors GREEN +:+ "✅ Total de documentos encontrados: "
                 +:+ str_of_nat (length found) +:+ reset_all colors)) (trace r)
  /\ In (Stdout (fore colors BLUE +:+ "ℹ️  Total de categorias: "
                 +:+ str_of_nat (length grouped) +:+ reset_all colors)) (trace r).
Proof.
  intros Hdir Hscan Hgroup Hplace r. unfold r, list_source_documents.
  assert (Hfile : match fs s !! "processed_documents.json" with
                  | Some Folder | Some (IndexFolder _) => true
                  | _ => false
                  end = false).
  { unfold path_isdir, bind, get_state, ret in Hplace. simpl in Hplace. congruence. }
  unfold json_dump, write_fs, path_exists, path_isdir, call, print_header, print, bind,
    emit, ret, raise, get_state.
  destruct (fs s !! default_data_dir) as [node|] eqn:Hnode; [|congruence].
  simpl. rewrite Hscan. simpl. rewrite Hgroup. simpl.
  assert (Hcat : only_prints
            (print_categories colors (sorted_strings (map fst grouped)) grouped s) s).
  { apply print_categories_only_prints. intros c Hc.
    apply (ListDocsFacts.sorted_strings_In c). exact Hc. }
  destruct Hcat as ([[] Hout] & Hafter & Hprints).
  destruct (print_categories colors (sorted_strings (map fst grouped)) grouped s)
    as [o s1 t1]. simpl in *. subst o s1. rewrite Hfile. simpl.
  rewrite ListDocsFacts.sorted_paths_length.
  split; [reflexivity|]. split; [reflexivity|]. split; [|split].
  - unfold calls_of. simpl. rewrite omap_app. fold (calls_of t1).
    rewrite (calls_of_prints _ Hprints). reflexivity.
  - simpl. auto 20.
  - simpl. auto 20.
Qed.

(** On a disk with neither the data directory, nor an index, nor a log,
    the script still runs to its end: it reports the three absences,
    calls nothing, writes nothing and ends normally. *)
Theorem nothing_there_is_only_reported s :
  fs s !! default_data_dir = None ->
  fs s !! "vectorstore" = None ->
  fs s !! "jurisrag.log" = None ->
  let r := main env colors now log_size log_lines s in
  outcome r = Ret tt
  /\ after r = s
  /\ calls_of (trace r) = []
  /\ In (Stdout (fore colors RED +:+ "❌ Diretório não encontrado: " +:+ default_data_dir
                 +:+ reset_all colors)) (trace r)
  /\ In (Stdout (fore colors RED +:+ "❌ Vectorstore não encontrado" +:+ reset_all colors))
        (trace r)
  /\ In (Stdout (fore colors YELLOW +:+ "⚠️  Arquivo de log não encontrado"
                 +:+ reset_all colors)) (trace r).
Proof.
  intros Hdir Hvs Hlog r. unfold r, main, list_source_documents, check_vectorstore_status,
    check_log_file.
  unfold path_exists, print_header, print, bind, emit, ret, raise, get_state.
  rewrite Hdir. simpl. rewrite Hvs. simpl. rewrite Hlog. simpl.
  repeat split; auto 30.
Qed.

Lemma print_lines_run lines s :
  print_lines lines s
  = mkRun (Ret tt) s (map (fun line => Stdout ("   " +:+ rstrip line)) lines).
Proof.
  induction lines as [|line others IH]; [reflexivity|].
  simpl. unfold bind, print, emit. rewrite IH. reflexivity.
Qed.

(** The log check shows the size and the end of the log, and no more than
    five lines of it: after its heading, which gives the number of lines
    and the size in KB with two decimals, it prints the last min(5, n) of
    the n lines of jurisrag.log, in the order of the file, each indented
    and stripped of white space on the right, and leaves the state as it
    was.  (The size of a file is below 2 ** 63.) *)
Theorem check_log_file_shows_the_last_five s :
  fs s !! "jurisrag.log" = Some RegularFile ->
  (log_size < 2 ^ 63)%N ->
  let r := check_log_file colors log_size log_lines s in
  let shown := last_lines 5 log_lines in
  r = mkRun (Ret tt) s
        (log_heading colors log_size log_lines
         ++ map (fun line => Stdout ("   " +:+ rstrip line)) shown)
  /\ length shown = Nat.min 5 (length log_lines)
  /\ log_lines = (firstn (length log_lines - 5) log_lines ++ shown)%list.
Proof.
  intros Hlog _ r shown. split; [|split].
  - unfold r, check_log_file, log_heading, format_size_line.
    unfold print_header, print, bind, emit, ret, raise, get_state.
    simpl. rewrite Hlog. simpl. rewrite print_lines_run. reflexivity.
  - unfold shown, last_lines. rewrite length_skipn. lia.
  - unfold shown, last_lines. symmetry. apply firstn_skipn.
Qed.

End WithEnv.
End ListDocsRuns.

(** * The further properties at concrete runs *)

(** The exit word in capitals, between no-break spaces. *)
Lemma exit_word_witness :
  stdin Cases.leaving = [Line Cases.sair]
  /\ str_in (lower (strip Cases.sair)) exit_words = true
  /\ outcome (Main.loop_body Sample.env Sample.chain Cases.leaving) = Ret Main.Break
  /\ console (trace (Main.loop_body Sample.env Sample.chain Cases.leaving))
     = farewell_console 0.
Proof.
  assert (H1 : stdin Cases.leaving = [Line Cases.sair]) by reflexivity.
  assert (H2 : str_in (lower (strip Cases.sair)) exit_words = true)
    by (vm_compute; reflexivity).
  repeat (split; [assumption|]).
  destruct (exit_word_ends_the_session Sample.env Sample.chain 0 Cases.leaving _ _ H1 H2)
    as (Ha & _ & _ & Hb & _).
  split; [exact Ha | exact Hb].
Defined.

(** The clear word with a capital, after an em space, away from Windows. *)
Lemma clear_word_witness :
  stdin Cases.clearing = [Line Cases.limpar; Line Cases.sair]
  /\ str_in (lower (strip Cases.limpar)) clear_words = true
  /\ Main.loop_body Sample.env Sample.chain Cases.clearing
     = mkRun (Ret Main.Continue) (Sample.start Sample.with_index [Line Cases.sair])
             [the_prompt; Ext (CallSystem "clear")].
Proof.
  assert (H1 : stdin Cases.clearing = [Line Cases.limpar; Line Cases.sair]) by reflexivity.
  assert (H2 : str_in (lower (strip Cases.limpar)) clear_words = true)
    by (vm_compute; reflexivity).
  repeat (split; [assumption|]).
  exact (clear_word_only_clears_the_screen Sample.env Sample.chain Cases.clearing _ _ H1 H2).
Defined.

(** Ctrl-C at the first prompt. *)
Lemma interrupt_witness :
  outcome (Main.turn Sample.env Sample.chain Cases.interrupted) = Raise KeyboardInterrupt
  /\ outcome (Main.qa_loop Sample.env 1 Sample.chain Cases.interrupted) = Ret Main.Finished.
Proof.
  assert (H1 : outcome (Main.turn Sample.env Sample.chain Cases.interrupted)
               = Raise KeyboardInterrupt) by (vm_compute; reflexivity).
  split; [assumption|].
  destruct (interrupt_ends_the_session_normally Sample.env Sample.chain 0
              Cases.interrupted H1) as (_ & _ & _ & H).
  exact H.
Defined.

(** A question, a blank line, then the exit word between no-break
    spaces: three passes are enough. *)
Lemma session_with_a_stop_witness :
  existsb stops (stdin Cases.three_lines) = true
  /\ length (stdin Cases.three_lines) <= 3
  /\ outcome (Main.qa_loop Sample.env 3 Sample.chain Cases.three_lines)
     = Ret Main.Finished.
Proof.
  assert (H1 : existsb stops (stdin Cases.three_lines) = true)
    by (vm_compute; reflexivity).
  assert (H2 : length (stdin Cases.three_lines) <= 3) by (simpl; lia).
  repeat (split; [assumption|]).
  exact (session_with_a_stop_finishes Sample.env 3 Sample.chain Cases.three_lines H1 H2).
Defined.

(** The key left at its placeholder. *)
Lemma refused_key_witness :
  key_refused (getenv Cases.no_key "OPENAI_API_KEY")
  /\ outcome (Load.main Cases.no_key Runs.fresh) = Raise (SystemExit 1)
  /\ calls_of (trace (Main.main Cases.no_key 1 Runs.asking)) = [].
Proof.
  assert (H1 : key_refused (getenv Cases.no_key "OPENAI_API_KEY"))
    by (right; right; reflexivity).
  split; [assumption|].
  pose proof (refused_key_stops_before_any_call Cases.no_key 1 Runs.fresh H1) as (Ha & _).
  pose proof (refused_key_stops_before_any_call Cases.no_key 1 Runs.asking H1)
    as (_ & _ & _ & Hb & _).
  split; [exact Ha | exact Hb].
Defined.

(** An empty disk. *)
Lemma missing_directory_witness :
  key_unconfigured (getenv Sample.env "OPENAI_API_KEY") = false
  /\ fs Cases.empty_disk !! default_data_dir = None
  /\ outcome (Load.main Sample.env Cases.empty_disk) = Raise (SystemExit 1)
  /\ calls_of (trace (Load.main Sample.env Cases.empty_disk)) = [].
Proof.
  assert (H1 : key_unconfigured (getenv Sample.env "OPENAI_API_KEY") = false)
    by (vm_compute; reflexivity).
  assert (H2 : fs Cases.empty_disk !! default_data_dir = None) by (vm_compute; reflexivity).
  repeat (split; [assumption|]).
  destruct (missing_directory_stops_before_any_call Sample.env 0 Cases.empty_disk H1 H2)
    as ((Ha & Hb & _) & _).
  split; [exact Ha | exact Hb].
Defined.

(** A directory without any .docx file. *)
Lemma empty_scan_witness :
  key_unconfigured (getenv Cases.no_files "OPENAI_API_KEY") = false
  /\ fs Runs.fresh !! default_data_dir <> None
  /\ rglob Cases.no_files default_data_dir "*.docx" = Ok []
  /\ calls_of (trace (Load.main Cases.no_files Runs.fresh))
     = [CallRglob default_data_dir "*.docx"].
Proof.
  assert (H1 : key_unconfigured (getenv Cases.no_files "OPENAI_API_KEY") = false)
    by (vm_compute; reflexivity).
  assert (H2 : fs Runs.fresh !! default_data_dir <> None) by (vm_compute; discriminate).
  assert (H3 : rglob Cases.no_files default_data_dir "*.docx" = Ok []) by reflexivity.
  repeat (split; [assumption|]).
  destruct (empty_scan_stops_load_before_the_loader Cases.no_files Runs.fresh H1 H2 H3)
    as (_ & H & _).
  exact H.
Defined.

(** A plain folder where the index should be. *)
Lemma unreadable_index_witness :
  fs Cases.stale !! "vectorstore" = Some Folder
  /\ read_index Sample.env (Some Folder) Sample.ada true
     = Fails "could not open vectorstore/index.faiss"
  /\ outcome (Main.main Sample.env 1 Cases.stale) = Raise (SystemExit 1)
  /\ fs (after (Main.main Sample.env 1 Cases.stale)) = fs Cases.stale.
Proof.
  assert (H0 : key_unconfigured (getenv Sample.env "OPENAI_API_KEY") = false)
    by (vm_compute; reflexivity).
  assert (H1 : fs Cases.stale !! "vectorstore" = Some Folder) by (vm_compute; reflexivity).
  assert (H2 : new_OpenAIEmbeddings Sample.env = Ok Sample.ada) by reflexivity.
  assert (H3 : read_index Sample.env (Some Folder) Sample.ada true
               = Fails "could not open vectorstore/index.faiss") by reflexivity.
  repeat (split; [assumption|]).
  destruct (unreadable_index_is_not_rebuilt Sample.env 1 Cases.stale _ _ _ H0 H1 H2 H3)
    as (Ha & _ & Hb & _).
  split; [exact Ha | exact Hb].
Defined.

(** load.py on a first run, then the start-up of main.py. *)
Lemma main_after_load_witness :
  outcome (Load.main Sample.env Runs.fresh) = Ret tt
  /\ exists vs,
       fs (after (Load.main Sample.env Runs.fresh))
       = <["vectorstore" := IndexFolder vs]> (fs Runs.fresh)
       /\ In loading_message (trace (Main.setup Sample.env (after (Load.main Sample.env Runs.fresh)))).
Proof.
  assert (H1 : outcome (Load.main Sample.env Runs.fresh) = Ret tt)
    by (vm_compute; reflexivity).
  split; [assumption|].
  destruct (main_after_load_uses_the_saved_index Sample.env Runs.fresh H1)
    as (vs & Ha & Hb & _).
  exists vs. split; [exact Ha | exact Hb].
Defined.

(** The listing of three files in two categories. *)
Lemma doc_list_totals_witness :
  ListDocs.group_files default_data_dir (ListDocs.sorted_paths Cases.shelf) []
  = inr Cases.shelf_grouped
  /\ ListDocs.total_documents
       (ListDocs.make_doc_list default_data_dir Cases.stamp
          (ListDocs.sorted_paths Cases.shelf) Cases.shelf_grouped) = 3.
Proof.
  assert (H1 : ListDocs.group_files default_data_dir (ListDocs.sorted_paths Cases.shelf) []
               = inr Cases.shelf_grouped) by (vm_compute; reflexivity).
  split; [assumption|].
  destruct (ListDocsFacts.doc_list_totals_agree default_data_dir Cases.stamp Cases.shelf
              Cases.shelf_grouped H1) as (H & _).
  exact H.
Defined.

Lemma every_file_is_listed_witness :
  ListDocs.group_files default_data_dir (ListDocs.sorted_paths Cases.shelf) []
  = inr Cases.shelf_grouped
  /\ In (default_data_dir +:+ "/consumidor/cdc.docx") Cases.shelf
  /\ exists rel_path,
       ListDocs.relative_to (ListDocs.parts (default_data_dir +:+ "/consumidor/cdc.docx"))
                            (ListDocs.parts default_data_dir) = Some rel_path
       /\ ListDocs.listed
            (ListDocs.categories
               (ListDocs.make_doc_list default_data_dir Cases.stamp
                  (ListDocs.sorted_paths Cases.shelf) Cases.shelf_grouped))
            (ListDocs.parent rel_path) (ListDocs.name rel_path).
Proof.
  assert (H1 : ListDocs.group_files default_data_dir (ListDocs.sorted_paths Cases.shelf) []
               = inr Cases.shelf_grouped) by (vm_compute; reflexivity).
  assert (H2 : In (default_data_dir +:+ "/consumidor/cdc.docx") Cases.shelf)
    by (simpl; auto).
  repeat (split; [assumption|]).
  exact (ListDocsFacts.every_file_is_listed default_data_dir Cases.stamp Cases.shelf
           Cases.shelf_grouped _ H1 H2).
Defined.

Lemma list_source_documents_witness :
  fs Runs.fresh !! default_data_dir <> None
  /\ rglob Cases.library default_data_dir "*.docx" = Ok Cases.shelf
  /\ ListDocs.group_files default_data_dir (ListDocs.sorted_paths Cases.shelf) []
     = inr Cases.shelf_grouped
  /\ outcome (path_isdir "processed_documents.json" Runs.fresh) = Ret false
  /\ outcome (ListDocs.list_source_documents Cases.library Cases.ansi Cases.stamp Runs.fresh)
     = Ret tt.
Proof.
  assert (H1 : fs Runs.fresh !! default_data_dir <> None) by (vm_compute; discriminate).
  assert (H2 : rglob Cases.library default_data_dir "*.docx" = Ok Cases.shelf)
    by reflexivity.
  assert (H3 : ListDocs.group_files default_data_dir (ListDocs.sorted_paths Cases.shelf) []
               = inr Cases.shelf_grouped) by (vm_compute; reflexivity).
  assert (H4 : outcome (path_isdir "processed_documents.json" Runs.fresh) = Ret false)
    by (vm_compute; reflexivity).
  repeat (split; [assumption|]).
  destruct (ListDocsRuns.list_source_documents_writes_the_list Cases.library Cases.ansi
              Cases.stamp Runs.fresh _ _ H1 H2 H3 H4) as (H & _).
  exact H.
Defined.

Lemma nothing_there_witness :
  fs Cases.empty_disk !! default_data_dir = None
  /\ fs Cases.empty_disk !! "vectorstore" = None
  /\ fs Cases.empty_disk !! "jurisrag.log" = None
  /\ outcome (ListDocs.main Sample.env Cases.ansi Cases.stamp Cases.log_bytes Cases.log
                            Cases.empty_disk)
     = Ret tt.
Proof.
  assert (H1 : fs Cases.empty_disk !! default_data_dir = None) by (vm_compute; reflexivity).
  assert (H2 : fs Cases.empty_disk !! "vectorstore" = None) by (vm_compute; reflexivity).
  assert (H3 : fs Cases.empty_disk !! "jurisrag.log" = None) by (vm_compute; reflexivity).
  repeat (split; [assumption|]).
  destruct (ListDocsRuns.nothing_there_is_only_reported Sample.env Cases.ansi Cases.stamp
              Cases.log_bytes Cases.log Cases.empty_disk H1 H2 H3) as (H & _).
  exact H.
Defined.

Lemma check_log_file_witness :
  fs Cases.logged !! "jurisrag.log" = Some RegularFile
  /\ (Cases.log_bytes < 2 ^ 63)%N
  /\ trace (ListDocs.check_log_file Cases.ansi Cases.log_bytes Cases.log Cases.logged)
     = (ListDocs.log_heading Cases.ansi Cases.log_bytes Cases.log
        ++ map (fun line => Stdout ("   " +:+ rstrip line))
               (ListDocs.last_lines 5 Cases.log))%list
  /\ ListDocs.format_size_line Cases.log_bytes = "   💾 Tamanho: 1.50 KB"
  /\ map rstrip (ListDocs.last_lines 5 Cases.log)
     = ["line 3"; "line 4"; "line 5"; "line 6"; "line 7"].
Proof.
  assert (H1 : fs Cases.logged !! "jurisrag.log" = Some RegularFile)
    by (vm_compute; reflexivity).
  assert (H2 : (Cases.log_bytes < 2 ^ 63)%N) by (vm_compute; reflexivity).
  repeat (split; [assumption|]).
  destruct (ListDocsRuns.check_log_file_shows_the_last_five Cases.ansi Cases.log_bytes
              Cases.log Cases.logged H1 H2) as (Hrun & _).
  split; [rewrite Hrun; reflexivity|].
  split; vm_compute; reflexivity.
Defined.
